(** * pyglaz: the Python wrapper of the GlazLib spectrometer library

    A shallow embedding of [pyglaz/_bindings.py], [pyglaz/utils.py] and
    [pyglaz/wrapper.py].  The native library is opaque: it is modelled as an
    arbitrary deterministic function of the history of foreign calls, and
    every wrapper method is a computation in a state-and-exception monad that
    logs each foreign call it issues. *)

From Stdlib Require Import ZArith List String Ascii Bool Lia.
Import ListNotations.
Open Scope string_scope.
Open Scope Z_scope.

(** ** Python values and exceptions *)

(** What a ctypes foreign function hands back to Python: [None] when the
    prototype has [restype = None], an [int] when it has [restype = c_int]. *)
Inductive PyObj : Type :=
| PyNone
| PyInt (z : Z).

(** Python's [==] on the two kinds of values above; [None] equals only
    [None]. *)
Definition py_eq (a b : PyObj) : bool :=
  match a, b with
  | PyNone, PyNone => true
  | PyInt x, PyInt y => x =? y
  | _, _ => false
  end.

Definition py_ne (a b : PyObj) : bool := negb (py_eq a b).

(** [a in l] on a list literal. *)
Definition py_in (a : PyObj) (l : list PyObj) : bool :=
  existsb (py_eq a) l.

(** The exception classes that occur.  [RuntimeError] and
    [FileNotFoundError] are the two classes the wrapper tests with
    [isinstance]; the others reach the wrapper from below. *)
Inductive exn_class : Type :=
| RuntimeError
| FileNotFoundError
| IndexError
| ValueError
| ArgumentError
| OSError
| UnicodeDecodeError.

Record exn : Type := Exn { exn_cls : exn_class; exn_str : string }.

(** [isinstance(e, RuntimeError)] and [isinstance(e, FileNotFoundError)]. *)
Definition is_RuntimeError (e : exn) : bool :=
  match exn_cls e with RuntimeError => true | _ => false end.

Definition is_FileNotFoundError (e : exn) : bool :=
  match exn_cls e with FileNotFoundError => true | _ => false end.

Inductive result (A : Type) : Type :=
| Returned (a : A)
| Raised (e : exn).
Arguments Returned {A} a.
Arguments Raised {A} e.

(** ** C data at the foreign boundary *)

(** A [c_double] is carried as its IEEE-754 binary64 bit pattern: the wrapper
    moves these values, it never computes with them. *)
Definition c_double : Type := Z.

(** The value read back from a [c_int] cell: 32 bits, two's complement. *)
Definition c_int_value (z : Z) : Z :=
  (z + 2147483648) mod 4294967296 - 2147483648.

(** The value read back from a [c_uint16] cell. *)
Definition c_uint16_value (z : Z) : Z := Z.land z 65535.

(** [(ctype * n)()] followed by a foreign call that writes [written] through
    the pointer: a zero-initialised array of exactly [n] cells, of which the
    library has overwritten a prefix. *)
Definition c_array {A : Type} (zero : A) (n : nat) (written : list A) : list A :=
  firstn n (written ++ repeat zero n).

(** [[data[i] for i in idxs]]: indexing a ctypes array past its length raises
    [IndexError]. *)
Fixpoint list_comp {A : Type} (data : list A) (idxs : list nat) : result (list A) :=
  match idxs with
  | [] => Returned []
  | i :: rest =>
      match nth_error data i with
      | None => Raised (Exn IndexError "invalid index")
      | Some x =>
          match list_comp data rest with
          | Returned xs => Returned (x :: xs)
          | Raised e => Raised e
          end
      end
  end.

(** [range(k)]. *)
Definition range (k : Z) : list nat := seq 0 (Z.to_nat k).

(** ** numpy arrays *)

Inductive dtype : Type := float64 | uint16.

Record ndarray : Type := NdArray {
  nd_dtype : dtype;
  nd_shape : list Z;
  nd_data : list Z            (* flat, row-major *)
}.

(** [np.array(l)] on a list of Python floats (also [np.array([])]) and
    [np.array(l, dtype=np.uint16)]. *)
Definition np_array (l : list Z) : ndarray :=
  NdArray float64 [Z.of_nat (List.length l)] l.

Definition np_array_uint16 (l : list Z) : ndarray :=
  NdArray uint16 [Z.of_nat (List.length l)] l.

(** [a.reshape((rows, cols))]: numpy refuses a shape whose size differs from
    the array's. *)
Definition reshape (a : ndarray) (rows cols : Z) : result ndarray :=
  if (rows * cols =? Z.of_nat (List.length (nd_data a))) && (0 <=? rows) && (0 <=? cols)
  then Returned (NdArray (nd_dtype a) [rows; cols] (nd_data a))
  else Raised (Exn ValueError "cannot reshape array").

(** Element [(r, c)] of a two-dimensional row-major array. *)
Definition nd_get2 (a : ndarray) (r c : Z) : option Z :=
  match nd_shape a with
  | [rows; cols] =>
      if (0 <=? r) && (r <? rows) && (0 <=? c) && (c <? cols)
      then nth_error (nd_data a) (Z.to_nat (r * cols + c))
      else None
  | _ => None
  end.

(** ** The call surface ([_bindings.py]) *)

(** Error codes used by the wrapper. *)
Definition ERROR_NONE : PyObj := PyInt 0.
Definition ERROR_NOT_INITIALISED : PyObj := PyInt 1.

(** Device type that is the default of [GlazLib.__init__]. *)
Definition GLAZ_LINESCAN_II_V2_SINGLE_DEVICE_TYPE : Z := 6.

(** One constructor per entry point of the library, with the arguments the
    wrapper passes.  Scalar output cells ([byref(size)], [byref(done)], ...)
    are always supplied and so are not recorded; a data buffer is recorded by
    its capacity in elements, [None] standing for the null pointer of the
    size query. *)
Inductive NativeCall : Type :=
| getVersion
| getLastErrorMessage (buffer : nat)
| getUSBParameters
| setUSBParameters (timeout bulk_size queue_size : Z)
| enableDataStreamLog (enable : bool)
| initialiseSession (path : string)
| initialiseSingleDeviceSession (device_type : Z) (use_defaults allow_demo : bool)
| closeSession
| resetAllDevices
| resetAllPorts
| setTestMode (mode : Z)
| setWavelengths (min_wavelength max_wavelength : c_double)
| setHardwareAveraging (averaging : Z)
| setResolution (resolution : Z)
| setScanCount (count : Z)
| setScanClockSpeed (speed : Z)
| setADCGain (gain : Z)
| setTriggerDelay (delay : Z)
| setTriggerMode (mode : Z)
| setInternalTriggerFrequency (frequency : c_double)
| setIntegrationMode (mode : Z)
| setIntegrationTime (time : Z)
| setSyncOutMode (mode : Z)
| setSyncOutPolarity (polarity : Z)
| setAuxOutMode (mode : Z)
| setAuxOutPolarity (polarity : Z)
| setOutCycleCount (count : Z)
| setTimeout (timeout : Z)
| captureBackground (count : Z)
| runMeasurement
| startMeasurement
| isMeasurementDone
| getResult (index : Z) (data : option nat)
| getComplexResult (index : Z) (real_data imag_data : option nat)
| getTimeStamp (index channel : Z)
| getScan (index scan_index : Z) (data : option nat)
| getComplexScan (index scan_index : Z) (real_data imag_data : option nat)
| getAllScansSizes (index : Z)
| getAllScans (index : Z) (data : nat)
| writeAllScansToFile (index : Z) (filename : string) (include_header : bool)
| getPDValues (index channel : Z) (values : option nat)
| getPDReference (index channel : Z)
| getAUXStates (index : Z) (states : option nat)
| getAUXCycleCounts (index channel : Z) (counts : option nat)
| runUSBCommsTest.

(** The declared [restype] of each prototype. *)
Inductive ctype : Type := restype_None | restype_c_int.

Definition restype (c : NativeCall) : ctype :=
  match c with
  | getVersion => restype_None
  | getLastErrorMessage _ => restype_c_int
  | getUSBParameters => restype_None
  | setUSBParameters _ _ _ => restype_None
  | enableDataStreamLog _ => restype_None
  | initialiseSession _ => restype_c_int
  | initialiseSingleDeviceSession _ _ _ => restype_c_int
  | closeSession => restype_c_int
  | resetAllDevices => restype_None
  | resetAllPorts => restype_None
  | setTestMode _ => restype_c_int
  | setWavelengths _ _ => restype_c_int
  | setHardwareAveraging _ => restype_c_int
  | setResolution _ => restype_c_int
  | setScanCount _ => restype_c_int
  | setScanClockSpeed _ => restype_c_int
  | setADCGain _ => restype_c_int
  | setTriggerDelay _ => restype_c_int
  | setTriggerMode _ => restype_c_int
  | setInternalTriggerFrequency _ => restype_c_int
  | setIntegrationMode _ => restype_c_int
  | setIntegrationTime _ => restype_c_int
  | setSyncOutMode _ => restype_c_int
  | setSyncOutPolarity _ => restype_c_int
  | setAuxOutMode _ => restype_c_int
  | setAuxOutPolarity _ => restype_c_int
  | setOutCycleCount _ => restype_c_int
  | setTimeout _ => restype_c_int
  | captureBackground _ => restype_c_int
  | runMeasurement => restype_c_int
  | startMeasurement => restype_c_int
  | isMeasurementDone => restype_c_int
  | getResult _ _ => restype_c_int
  | getComplexResult _ _ _ => restype_c_int
  | getTimeStamp _ _ => restype_c_int
  | getScan _ _ _ => restype_c_int
  | getComplexScan _ _ _ _ => restype_c_int
  | getAllScansSizes _ => restype_c_int
  | getAllScans _ _ => restype_c_int
  | writeAllScansToFile _ _ _ => restype_c_int
  | getPDValues _ _ _ => restype_c_int
  | getPDReference _ _ => restype_c_int
  | getAUXStates _ _ => restype_c_int
  | getAUXCycleCounts _ _ _ => restype_c_int
  | runUSBCommsTest => restype_c_int
  end.

(** What the library leaves behind when a call comes back: the C return
    value and the contents of the output cells and buffers it was given.
    Cells and buffers a prototype does not have are ignored. *)
Record Response : Type := {
  ret_value : Z;                       (* C return value *)
  out_ints : list Z;                   (* what the c_int output cells hold afterwards, in argument order *)
  out_bool : bool;                     (* the c_bool output cell *)
  out_double : c_double;               (* the c_double output cell *)
  out_text : string;                   (* the text buffer, decoded *)
  buf_double : list c_double;          (* first c_double buffer *)
  buf_double2 : list c_double;         (* second c_double buffer *)
  buf_uint16 : list Z;
  buf_bool : list bool;
  buf_int : list Z
}.

(** Exceptions a ctypes call can raise by itself: a failed argument
    conversion, an operating-system fault, and (for the text accessor, whose
    result is decoded on the spot) an undecodable message.  None of them is a
    [RuntimeError]. *)
Inductive foreign_error : Type :=
| F_ArgumentError
| F_OSError
| F_UnicodeDecodeError.

Definition foreign_class (f : foreign_error) : exn_class :=
  match f with
  | F_ArgumentError => ArgumentError
  | F_OSError => OSError
  | F_UnicodeDecodeError => UnicodeDecodeError
  end.

Inductive NativeOutcome : Type :=
| Completes (r : Response)
| Throws (f : foreign_error) (msg : string).

(** The opaque library: its answer to a call may depend on every call made
    before it in the process. *)
Definition NativeLib : Type := list NativeCall -> NativeCall -> NativeOutcome.

(** What the k-th [c_int] output cell holds after the call; a cell the
    response does not list holds 0. *)
Definition out_int (k : nat) (r : Response) : Z :=
  c_int_value (nth k (out_ints r) 0).

(** The Python value of a foreign call, as fixed by its [restype]. *)
Definition py_return (c : NativeCall) (r : Response) : PyObj :=
  match restype c with
  | restype_None => PyNone
  | restype_c_int => PyInt (c_int_value (ret_value r))
  end.

(** ** State and the wrapper monad *)

(** The [GlazLib] object has one attribute; the process carries the log of
    foreign calls issued so far. *)
Record State : Type := {
  _initialized : bool;
  history : list NativeCall
}.

Definition M (A : Type) : Type := State -> result A * State.

Definition ret {A} (a : A) : M A := fun s => (Returned a, s).

Definition raise {A} (e : exn) : M A := fun s => (Raised e, s).

Definition bind {A B} (m : M A) (k : A -> M B) : M B :=
  fun s =>
    match m s with
    | (Returned a, s') => k a s'
    | (Raised e, s') => (Raised e, s')
    end.

(** [try: m  except Exception as e: handler e].  Whatever [m] did to the
    state before raising stays done. *)
Definition try_except {A} (m : M A) (handler : exn -> M A) : M A :=
  fun s =>
    match m s with
    | (Returned a, s') => (Returned a, s')
    | (Raised e, s') => handler e s'
    end.

Definition lift {A} (r : result A) : M A := fun s => (r, s).

Definition get_initialized : M bool := fun s => (Returned (_initialized s), s).

Definition set_initialized (b : bool) : M unit :=
  fun s => (Returned tt, {| _initialized := b; history := history s |}).

Notation "x <- m ;; k" := (bind m (fun x => k))
  (at level 61, m at next level, right associativity).
Notation "' pat <- m ;; k" := (bind m (fun x => match x with pat => k end))
  (at level 61, pat pattern, m at next level, right associativity).
Notation "m ;;; k" := (bind m (fun _ => k))
  (at level 61, right associativity).

(** ** Configuration files ([utils.py]) *)

(** The part of the operating system [utils.py] and [__init__] look at.  The
    file system does not change while a session is being opened. *)
Record OS : Type := {
  isfile : string -> bool;               (* os.path.isfile *)
  join : string -> string -> string;     (* os.path.join *)
  dirname : string -> string;            (* os.path.dirname *)
  abspath___file__ : string;             (* os.path.abspath(__file__) *)
  getcwd : string                        (* os.getcwd() *)
}.

Definition ascii_lower (c : ascii) : ascii :=
  let n := nat_of_ascii c in
  if (65 <=? n)%nat && (n <=? 90)%nat then ascii_of_nat (n + 32) else c.

(** [s.lower()] and [s.endswith(suffix)].  A Python string is carried as its
    UTF-8 bytes; lowering the ASCII letters is all that a test for the
    ending [.xml] can see of [lower()]. *)
Fixpoint lower (s : string) : string :=
  match s with
  | EmptyString => EmptyString
  | String c rest => String (ascii_lower c) (lower rest)
  end.

Fixpoint endswith (s suffix : string) : bool :=
  (s =? suffix)%string ||
  match s with
  | EmptyString => false
  | String _ rest => endswith rest suffix
  end.

Section Utils.

Variable os : OS.

(** [for directory in search_dirs: filepath = join(directory, name);
    if isfile(filepath): return filepath]. *)
Fixpoint search_directories (search_dirs : list string) (name : string) : option string :=
  match search_dirs with
  | [] => None
  | directory :: rest =>
      let filepath := join os directory name in
      if isfile os filepath then Some filepath else search_directories rest name
  end.

(** The outer loop over the default configuration names. *)
Fixpoint search_defaults (default_configs search_dirs : list string) : option string :=
  match default_configs with
  | [] => None
  | config :: rest =>
      match search_directories search_dirs config with
      | Some filepath => Some filepath
      | None => search_defaults rest search_dirs
      end
  end.

Definition find_config_file (config_name : option string)
    (search_dirs : option (list string)) : result string :=
  let search_dirs :=
    match search_dirs with
    | None =>
        let pkg_dir := dirname os (abspath___file__ os) in
        [ join os (dirname os pkg_dir) "configs"; pkg_dir; getcwd os ]
    | Some dirs => dirs
    end in
  match config_name with
  | None =>
      let default_configs := ["single_spectrometer.xml"; "double_spectrometer.xml"] in
      match search_defaults default_configs search_dirs with
      | Some filepath => Returned filepath
      | None =>
          Raised (Exn FileNotFoundError
            ("Could not find default configuration files: "
               ++ String.concat ", " default_configs))
      end
  | Some config_name =>
      let config_name :=
        if negb (endswith (lower config_name) ".xml")
        then config_name ++ ".xml" else config_name in
      match search_directories search_dirs config_name with
      | Some filepath => Returned filepath
      | None =>
          Raised (Exn FileNotFoundError
            ("Could not find configuration file: " ++ config_name))
      end
  end.

End Utils.

(** ** The session object ([wrapper.py]) *)

(** [print] calls only write to standard output and are left out. *)

Section Wrapper.

Variable os : OS.

(** The library the process has loaded. *)
Variable lib : NativeLib.

(** [lib._lib.f(args)]: the call is logged, and either comes back with its
    Python return value and the output cells, or raises. *)
Definition call (c : NativeCall) : M (PyObj * Response) :=
  fun s =>
    let s' := {| _initialized := _initialized s; history := history s ++ [c] |} in
    match lib (history s) c with
    | Completes r => (Returned (py_return c r, r), s')
    | Throws f msg => (Raised (Exn (foreign_class f) msg), s')
    end.

(** [get_last_error_message]: a 1024-byte text buffer, filled by the library
    and decoded. *)
Definition get_last_error_message : M string :=
  let buffer_size := 1024%nat in
  '(_, buffer) <- call (getLastErrorMessage buffer_size) ;;
  ret (out_text buffer).

(** *** Opening and closing *)

Definition __init__ (config_file : option string) (device_type : Z)
    (use_defaults allow_demo : bool) : M unit :=
  set_initialized false ;;;
  try_except
    (config_path <-
       match config_file with
       | Some config_file =>
           if isfile os config_file then ret (Some config_file)
           else
             found <- lift (find_config_file os (Some config_file) None) ;;
             ret (Some found)
       | None =>
           try_except
             (found <- lift (find_config_file os None None) ;; ret (Some found))
             (fun e => if is_FileNotFoundError e then ret None else raise e)
       end ;;
     match config_path with
     | Some config_path =>
         '(status, _) <- call (initialiseSession config_path) ;;
         if py_ne status ERROR_NONE then
           error_msg <- get_last_error_message ;;
           raise (Exn RuntimeError
             ("Failed to initialize GlazLib session with config file: " ++ error_msg))
         else ret tt
     | None =>
         '(status, _) <- call (initialiseSingleDeviceSession device_type use_defaults allow_demo) ;;
         if py_ne status ERROR_NONE then
           error_msg <- get_last_error_message ;;
           raise (Exn RuntimeError
             ("Failed to initialize GlazLib session with device type: " ++ error_msg))
         else ret tt
     end ;;;
     set_initialized true)
    (fun e =>
       if is_RuntimeError e then raise e
       else if is_FileNotFoundError e then raise e
       else raise (Exn RuntimeError
              ("Failed to initialize GlazLib session: " ++ exn_str e))).

Definition close : M unit :=
  initialized <- get_initialized ;;
  if negb initialized then ret tt
  else
    try_except
      ('(status, _) <- call closeSession ;;
       set_initialized false ;;;
       if py_ne status ERROR_NONE then
         error_msg <- get_last_error_message ;;
         if negb (py_in status [ERROR_NOT_INITIALISED]) then
           raise (Exn RuntimeError ("Failed to close GlazLib session: " ++ error_msg))
         else ret tt
       else ret tt)
      (fun e =>
         set_initialized false ;;;
         if is_RuntimeError e then raise e else ret tt).

Definition __del__ : M unit := close.

(** *** Library information and USB parameters *)

Definition get_version : M (Z * Z) :=
  '(_, cells) <- call getVersion ;;
  ret (out_int 0 cells, out_int 1 cells).

(** The returned dictionary, as its items in insertion order. *)
Definition get_usb_parameters : M (list (string * Z)) :=
  '(_, cells) <- call getUSBParameters ;;
  ret [ ("timeout", out_int 0 cells);
        ("bulk_size", out_int 1 cells);
        ("queue_size", out_int 2 cells) ].

Definition set_usb_parameters (timeout bulk_size queue_size : Z) : M unit :=
  '(status, _) <- call (setUSBParameters timeout bulk_size queue_size) ;;
  if py_ne status ERROR_NONE then
    error_msg <- get_last_error_message ;;
    raise (Exn RuntimeError ("Failed to set USB parameters: " ++ error_msg))
  else ret tt.

Definition enable_data_stream_log (enable : bool) : M unit :=
  call (enableDataStreamLog enable) ;;; ret tt.

Definition reset_all_devices : M unit :=
  call resetAllDevices ;;; ret tt.

Definition reset_all_ports : M unit :=
  call resetAllPorts ;;; ret tt.

(** *** Configuration setters *)

Definition set_test_mode (mode : Z) : M unit :=
  '(status, _) <- call (setTestMode mode) ;;
  if py_ne status ERROR_NONE then
    error_msg <- get_last_error_message ;;
    raise (Exn RuntimeError ("Failed to set test mode: " ++ error_msg))
  else ret tt.

Definition set_wavelengths (min_wavelength max_wavelength : c_double) : M unit :=
  '(status, _) <- call (setWavelengths min_wavelength max_wavelength) ;;
  if py_ne status ERROR_NONE then
    error_msg <- get_last_error_message ;;
    raise (Exn RuntimeError ("Failed to set wavelength range: " ++ error_msg))
  else ret tt.

Definition set_hardware_averaging (averaging : Z) : M unit :=
  '(status, _) <- call (setHardwareAveraging averaging) ;;
  if py_ne status ERROR_NONE then
    error_msg <- get_last_error_message ;;
    raise (Exn RuntimeError ("Failed to set hardware averaging: " ++ error_msg))
  else ret tt.

Definition set_resolution (resolution : Z) : M unit :=
  '(status, _) <- call (setResolution resolution) ;;
  if py_ne status ERROR_NONE then
    error_msg <- get_last_error_message ;;
    raise (Exn RuntimeError ("Failed to set resolution: " ++ error_msg))
  else ret tt.

Definition set_scan_count (count : Z) : M unit :=
  '(status, _) <- call (setScanCount count) ;;
  if py_ne status ERROR_NONE then
    error_msg <- get_last_error_message ;;
    raise (Exn RuntimeError ("Failed to set scan count: " ++ error_msg))
  else ret tt.

Definition set_scan_clock_speed (speed : Z) : M unit :=
  '(status, _) <- call (setScanClockSpeed speed) ;;
  if py_ne status ERROR_NONE then
    error_msg <- get_last_error_message ;;
    raise (Exn RuntimeError ("Failed to set scan clock speed: " ++ error_msg))
  else ret tt.

Definition set_adc_gain (gain : Z) : M unit :=
  '(status, _) <- call (setADCGain gain) ;;
  if py_ne status ERROR_NONE then
    error_msg <- get_last_error_message ;;
    raise (Exn RuntimeError ("Failed to set ADC gain: " ++ error_msg))
  else ret tt.

Definition set_trigger_delay (delay : Z) : M unit :=
  '(status, _) <- call (setTriggerDelay delay) ;;
  if py_ne status ERROR_NONE then
    error_msg <- get_last_error_message ;;
    raise (Exn RuntimeError ("Failed to set trigger delay: " ++ error_msg))
  else ret tt.

Definition set_trigger_mode (mode : Z) : M unit :=
  '(status, _) <- call (setTriggerMode mode) ;;
  if py_ne status ERROR_NONE then
    error_msg <- get_last_error_message ;;
    raise (Exn RuntimeError ("Failed to set trigger mode: " ++ error_msg))
  else ret tt.

Definition set_internal_trigger_frequency (frequency : c_double) : M unit :=
  '(status, _) <- call (setInternalTriggerFrequency frequency) ;;
  if py_ne status ERROR_NONE then
    error_msg <- get_last_error_message ;;
    raise (Exn RuntimeError ("Failed to set internal trigger frequency: " ++ error_msg))
  else ret tt.

Definition set_integration_mode (mode : Z) : M unit :=
  '(status, _) <- call (setIntegrationMode mode) ;;
  if py_ne status ERROR_NONE then
    error_msg <- get_last_error_message ;;
    raise (Exn RuntimeError ("Failed to set integration mode: " ++ error_msg))
  else ret tt.

Definition set_integration_time (time : Z) : M unit :=
  '(status, _) <- call (setIntegrationTime time) ;;
  if py_ne status ERROR_NONE then
    error_msg <- get_last_error_message ;;
    raise (Exn RuntimeError ("Failed to set integration time: " ++ error_msg))
  else ret tt.

Definition set_sync_out_mode (mode : Z) : M unit :=
  '(status, _) <- call (setSyncOutMode mode) ;;
  if py_ne status ERROR_NONE then
    error_msg <- get_last_error_message ;;
    raise (Exn RuntimeError ("Failed to set sync output mode: " ++ error_msg))
  else ret tt.

Definition set_sync_out_polarity (polarity : Z) : M unit :=
  '(status, _) <- call (setSyncOutPolarity polarity) ;;
  if py_ne status ERROR_NONE then
    error_msg <- get_last_error_message ;;
    raise (Exn RuntimeError ("Failed to set sync output polarity: " ++ error_msg))
  else ret tt.

Definition set_aux_out_mode (mode : Z) : M unit :=
  '(status, _) <- call (setAuxOutMode mode) ;;
  if py_ne status ERROR_NONE then
    error_msg <- get_last_error_message ;;
    raise (Exn RuntimeError ("Failed to set auxiliary output mode: " ++ error_msg))
  else ret tt.

Definition set_aux_out_polarity (polarity : Z) : M unit :=
  '(status, _) <- call (setAuxOutPolarity polarity) ;;
  if py_ne status ERROR_NONE then
    error_msg <- get_last_error_message ;;
    raise (Exn RuntimeError ("Failed to set auxiliary output polarity: " ++ error_msg))
  else ret tt.

Definition set_out_cycle_count (count : Z) : M unit :=
  '(status, _) <- call (setOutCycleCount count) ;;
  if py_ne status ERROR_NONE then
    error_msg <- get_last_error_message ;;
    raise (Exn RuntimeError ("Failed to set output cycle count: " ++ error_msg))
  else ret tt.

Definition set_timeout (timeout : Z) : M unit :=
  '(status, _) <- call (setTimeout timeout) ;;
  if py_ne status ERROR_NONE then
    error_msg <- get_last_error_message ;;
    raise (Exn RuntimeError ("Failed to set timeout: " ++ error_msg))
  else ret tt.

(** *** Acquisition *)

Definition capture_background (count : Z) : M unit :=
  '(status, _) <- call (captureBackground count) ;;
  if py_ne status ERROR_NONE then
    error_msg <- get_last_error_message ;;
    raise (Exn RuntimeError ("Failed to capture background: " ++ error_msg))
  else ret tt.

Definition run_measurement : M unit :=
  '(status, _) <- call (runMeasurement) ;;
  if py_ne status ERROR_NONE then
    error_msg <- get_last_error_message ;;
    raise (Exn RuntimeError ("Failed to run measurement: " ++ error_msg))
  else ret tt.

Definition start_measurement : M unit :=
  '(status, _) <- call (startMeasurement) ;;
  if py_ne status ERROR_NONE then
    error_msg <- get_last_error_message ;;
    raise (Exn RuntimeError ("Failed to start measurement: " ++ error_msg))
  else ret tt.

Definition is_measurement_done : M bool :=
  '(status, done) <- call isMeasurementDone ;;
  if py_ne status ERROR_NONE then
    error_msg <- get_last_error_message ;;
    raise (Exn RuntimeError ("Failed to check if measurement is done: " ++ error_msg))
  else ret (out_bool done).

(** *** Results: the two-phase getters

    Every variable-length getter first calls the library with a null data
    pointer to learn the element count, then allocates a ctypes array of
    that many cells and calls again.  Allocation is taken to succeed. *)

Definition get_result (index : Z) : M (ndarray * Z) :=
  '(status, size) <- call (getResult index None) ;;
  if py_ne status ERROR_NONE then
    error_msg <- get_last_error_message ;;
    raise (Exn RuntimeError ("Failed to get result size: " ++ error_msg))
  else
    let size_value := out_int 0 size in
    if size_value <=? 0 then ret (np_array [], 0)
    else
      let capacity := Z.to_nat size_value in
      '(status, filled) <- call (getResult index (Some capacity)) ;;
      if py_ne status ERROR_NONE then
        error_msg <- get_last_error_message ;;
        raise (Exn RuntimeError ("Failed to get result data: " ++ error_msg))
      else
        let data := c_array 0 capacity (buf_double filled) in
        let size_value := out_int 0 filled in
        items <- lift (list_comp data (range size_value)) ;;
        ret (np_array items, size_value).

Definition get_complex_result (index : Z) : M (ndarray * ndarray * Z) :=
  '(status, size) <- call (getComplexResult index None None) ;;
  if py_ne status ERROR_NONE then
    error_msg <- get_last_error_message ;;
    raise (Exn RuntimeError ("Failed to get complex result size: " ++ error_msg))
  else
    let size_value := out_int 0 size in
    if size_value <=? 0 then ret (np_array [], np_array [], 0)
    else
      let capacity := Z.to_nat size_value in
      '(status, filled) <- call (getComplexResult index (Some capacity) (Some capacity)) ;;
      if py_ne status ERROR_NONE then
        error_msg <- get_last_error_message ;;
        raise (Exn RuntimeError ("Failed to get complex result data: " ++ error_msg))
      else
        let real_data := c_array 0 capacity (buf_double filled) in
        let imag_data := c_array 0 capacity (buf_double2 filled) in
        let size_value := out_int 0 filled in
        real_items <- lift (list_comp real_data (range size_value)) ;;
        imag_items <- lift (list_comp imag_data (range size_value)) ;;
        ret (np_array real_items, np_array imag_items, size_value).

Definition get_time_stamp (index channel : Z) : M c_double :=
  '(status, value) <- call (getTimeStamp index channel) ;;
  if py_ne status ERROR_NONE then
    error_msg <- get_last_error_message ;;
    raise (Exn RuntimeError ("Failed to get time stamp: " ++ error_msg))
  else ret (out_double value).

Definition get_scan (index scan_index : Z) : M (ndarray * Z) :=
  '(status, size) <- call (getScan index scan_index None) ;;
  if py_ne status ERROR_NONE then
    error_msg <- get_last_error_message ;;
    raise (Exn RuntimeError ("Failed to get scan size: " ++ error_msg))
  else
    let size_value := out_int 0 size in
    if size_value <=? 0 then ret (np_array [], 0)
    else
      let capacity := Z.to_nat size_value in
      '(status, filled) <- call (getScan index scan_index (Some capacity)) ;;
      if py_ne status ERROR_NONE then
        error_msg <- get_last_error_message ;;
        raise (Exn RuntimeError ("Failed to get scan data: " ++ error_msg))
      else
        let data := c_array 0 capacity (buf_double filled) in
        let size_value := out_int 0 filled in
        items <- lift (list_comp data (range size_value)) ;;
        ret (np_array items, size_value).

Definition get_complex_scan (index scan_index : Z) : M (ndarray * ndarray * Z) :=
  '(status, size) <- call (getComplexScan index scan_index None None) ;;
  if py_ne status ERROR_NONE then
    error_msg <- get_last_error_message ;;
    raise (Exn RuntimeError ("Failed to get complex scan size: " ++ error_msg))
  else
    let size_value := out_int 0 size in
    if size_value <=? 0 then ret (np_array [], np_array [], 0)
    else
      let capacity := Z.to_nat size_value in
      '(status, filled) <- call (getComplexScan index scan_index (Some capacity) (Some capacity)) ;;
      if py_ne status ERROR_NONE then
        error_msg <- get_last_error_message ;;
        raise (Exn RuntimeError ("Failed to get complex scan data: " ++ error_msg))
      else
        let real_data := c_array 0 capacity (buf_double filled) in
        let imag_data := c_array 0 capacity (buf_double2 filled) in
        let size_value := out_int 0 filled in
        real_items <- lift (list_comp real_data (range size_value)) ;;
        imag_items <- lift (list_comp imag_data (range size_value)) ;;
        ret (np_array real_items, np_array imag_items, size_value).

Definition get_all_scans_sizes (index : Z) : M (Z * Z) :=
  '(status, sizes) <- call (getAllScansSizes index) ;;
  if py_ne status ERROR_NONE then
    error_msg <- get_last_error_message ;;
    raise (Exn RuntimeError ("Failed to get all scans sizes: " ++ error_msg))
  else ret (out_int 0 sizes, out_int 1 sizes).

Definition get_all_scans (index : Z) : M ndarray :=
  '(num_scans, pixels_per_scan) <- get_all_scans_sizes index ;;
  if (num_scans <=? 0) || (pixels_per_scan <=? 0) then ret (np_array [])
  else
    let total_size := num_scans * pixels_per_scan in
    '(status, filled) <- call (getAllScans index (Z.to_nat total_size)) ;;
    if py_ne status ERROR_NONE then
      error_msg <- get_last_error_message ;;
      raise (Exn RuntimeError ("Failed to get all scans: " ++ error_msg))
    else
      let data := c_array 0 (Z.to_nat total_size)
                    (map c_uint16_value (buf_uint16 filled)) in
      items <- lift (list_comp data (range total_size)) ;;
      let array_data := np_array_uint16 items in
      lift (reshape array_data num_scans pixels_per_scan).

Definition write_all_scans_to_file (index : Z) (filename : string)
    (include_header : bool) : M unit :=
  '(status, _) <- call (writeAllScansToFile index filename include_header) ;;
  if py_ne status ERROR_NONE then
    error_msg <- get_last_error_message ;;
    raise (Exn RuntimeError ("Failed to write all scans to file: " ++ error_msg))
  else ret tt.

Definition get_pd_values (index channel : Z) : M (ndarray * Z) :=
  '(status, size) <- call (getPDValues index channel None) ;;
  if py_ne status ERROR_NONE then
    error_msg <- get_last_error_message ;;
    raise (Exn RuntimeError ("Failed to get photodiode values size: " ++ error_msg))
  else
    let size_value := out_int 0 size in
    if size_value <=? 0 then ret (np_array [], 0)
    else
      let capacity := Z.to_nat size_value in
      '(status, filled) <- call (getPDValues index channel (Some capacity)) ;;
      if py_ne status ERROR_NONE then
        error_msg <- get_last_error_message ;;
        raise (Exn RuntimeError ("Failed to get photodiode values: " ++ error_msg))
      else
        let values := c_array 0 capacity (buf_double filled) in
        let size_value := out_int 0 filled in
        items <- lift (list_comp values (range size_value)) ;;
        ret (np_array items, size_value).

Definition get_pd_reference (index channel : Z) : M c_double :=
  '(status, value) <- call (getPDReference index channel) ;;
  if py_ne status ERROR_NONE then
    error_msg <- get_last_error_message ;;
    raise (Exn RuntimeError ("Failed to get photodiode reference: " ++ error_msg))
  else ret (out_double value).

Definition get_aux_states (index : Z) : M (list bool * Z) :=
  '(status, size) <- call (getAUXStates index None) ;;
  if py_ne status ERROR_NONE then
    error_msg <- get_last_error_message ;;
    raise (Exn RuntimeError ("Failed to get auxiliary states size: " ++ error_msg))
  else
    let size_value := out_int 0 size in
    if size_value <=? 0 then ret ([], 0)
    else
      let capacity := Z.to_nat size_value in
      '(status, filled) <- call (getAUXStates index (Some capacity)) ;;
      if py_ne status ERROR_NONE then
        error_msg <- get_last_error_message ;;
        raise (Exn RuntimeError ("Failed to get auxiliary states: " ++ error_msg))
      else
        let states := c_array false capacity (buf_bool filled) in
        let size_value := out_int 0 filled in
        items <- lift (list_comp states (range size_value)) ;;
        ret (items, size_value).

Definition get_aux_cycle_counts (index channel : Z) : M (list Z * Z) :=
  '(status, size) <- call (getAUXCycleCounts index channel None) ;;
  if py_ne status ERROR_NONE then
    error_msg <- get_last_error_message ;;
    raise (Exn RuntimeError ("Failed to get auxiliary cycle counts size: " ++ error_msg))
  else
    let size_value := out_int 0 size in
    if size_value <=? 0 then ret ([], 0)
    else
      let capacity := Z.to_nat size_value in
      '(status, filled) <- call (getAUXCycleCounts index channel (Some capacity)) ;;
      if py_ne status ERROR_NONE then
        error_msg <- get_last_error_message ;;
        raise (Exn RuntimeError ("Failed to get auxiliary cycle counts: " ++ error_msg))
      else
        let counts := c_array 0 capacity (map c_int_value (buf_int filled)) in
        let size_value := out_int 0 filled in
        items <- lift (list_comp counts (range size_value)) ;;
        ret (items, size_value).

Definition run_usb_comms_test : M unit :=
  '(status, _) <- call runUSBCommsTest ;;
  if py_ne status ERROR_NONE then
    error_msg <- get_last_error_message ;;
    raise (Exn RuntimeError ("USB communications test failed: " ++ error_msg))
  else ret tt.

(** *** Uniform views of the methods *)

(** The eight variable-length getters with their arguments.  None of them
    takes a size. *)
Inductive getter : Type :=
| G_result (index : Z)
| G_complex_result (index : Z)
| G_scan (index scan_index : Z)
| G_complex_scan (index scan_index : Z)
| G_all_scans (index : Z)
| G_pd_values (index channel : Z)
| G_aux_states (index : Z)
| G_aux_cycle_counts (index channel : Z).

(** What a getter hands back. *)
Inductive fetched : Type :=
| Flat (data : ndarray) (size : Z)
| Complex (real_data imag_data : ndarray) (size : Z)
| Matrix (data : ndarray)
| States (states : list bool) (size : Z)
| Counts (counts : list Z) (size : Z).

Definition run_getter (g : getter) : M fetched :=
  match g with
  | G_result index =>
      '(data, size) <- get_result index ;; ret (Flat data size)
  | G_complex_result index =>
      '(re, im, size) <- get_complex_result index ;; ret (Complex re im size)
  | G_scan index scan_index =>
      '(data, size) <- get_scan index scan_index ;; ret (Flat data size)
  | G_complex_scan index scan_index =>
      '(re, im, size) <- get_complex_scan index scan_index ;; ret (Complex re im size)
  | G_all_scans index =>
      data <- get_all_scans index ;; ret (Matrix data)
  | G_pd_values index channel =>
      '(data, size) <- get_pd_values index channel ;; ret (Flat data size)
  | G_aux_states index =>
      '(states, size) <- get_aux_states index ;; ret (States states size)
  | G_aux_cycle_counts index channel =>
      '(counts, size) <- get_aux_cycle_counts index channel ;; ret (Counts counts size)
  end.

(** Every public method after construction, with its arguments. *)
Inductive method : Type :=
| m_close
| m_get_version
| m_get_last_error_message
| m_get_usb_parameters
| m_set_usb_parameters (timeout bulk_size queue_size : Z)
| m_enable_data_stream_log (enable : bool)
| m_reset_all_devices
| m_reset_all_ports
| m_set_test_mode (mode : Z)
| m_set_wavelengths (min_wavelength max_wavelength : c_double)
| m_set_hardware_averaging (averaging : Z)
| m_set_resolution (resolution : Z)
| m_set_scan_count (count : Z)
| m_set_scan_clock_speed (speed : Z)
| m_set_adc_gain (gain : Z)
| m_set_trigger_delay (delay : Z)
| m_set_trigger_mode (mode : Z)
| m_set_internal_trigger_frequency (frequency : c_double)
| m_set_integration_mode (mode : Z)
| m_set_integration_time (time : Z)
| m_set_sync_out_mode (mode : Z)
| m_set_sync_out_polarity (polarity : Z)
| m_set_aux_out_mode (mode : Z)
| m_set_aux_out_polarity (polarity : Z)
| m_set_out_cycle_count (count : Z)
| m_set_timeout (timeout : Z)
| m_capture_background (count : Z)
| m_run_measurement
| m_start_measurement
| m_is_measurement_done
| m_get (g : getter)
| m_get_time_stamp (index channel : Z)
| m_get_all_scans_sizes (index : Z)
| m_write_all_scans_to_file (index : Z) (filename : string) (include_header : bool)
| m_get_pd_reference (index channel : Z)
| m_run_usb_comms_test.

Definition discard {A} (m : M A) : M unit := m ;;; ret tt.

(** Calling a method for its effect. *)
Definition invoke (m : method) : M unit :=
  match m with
  | m_close => close
  | m_get_version => discard get_version
  | m_get_last_error_message => discard get_last_error_message
  | m_get_usb_parameters => discard get_usb_parameters
  | m_set_usb_parameters t b q => set_usb_parameters t b q
  | m_enable_data_stream_log enable => enable_data_stream_log enable
  | m_reset_all_devices => reset_all_devices
  | m_reset_all_ports => reset_all_ports
  | m_set_test_mode mode => set_test_mode mode
  | m_set_wavelengths lo hi => set_wavelengths lo hi
  | m_set_hardware_averaging averaging => set_hardware_averaging averaging
  | m_set_resolution resolution => set_resolution resolution
  | m_set_scan_count count => set_scan_count count
  | m_set_scan_clock_speed speed => set_scan_clock_speed speed
  | m_set_adc_gain gain => set_adc_gain gain
  | m_set_trigger_delay delay => set_trigger_delay delay
  | m_set_trigger_mode mode => set_trigger_mode mode
  | m_set_internal_trigger_frequency f => set_internal_trigger_frequency f
  | m_set_integration_mode mode => set_integration_mode mode
  | m_set_integration_time time => set_integration_time time
  | m_set_sync_out_mode mode => set_sync_out_mode mode
  | m_set_sync_out_polarity polarity => set_sync_out_polarity polarity
  | m_set_aux_out_mode mode => set_aux_out_mode mode
  | m_set_aux_out_polarity polarity => set_aux_out_polarity polarity
  | m_set_out_cycle_count count => set_out_cycle_count count
  | m_set_timeout timeout => set_timeout timeout
  | m_capture_background count => capture_background count
  | m_run_measurement => run_measurement
  | m_start_measurement => start_measurement
  | m_is_measurement_done => discard is_measurement_done
  | m_get g => discard (run_getter g)
  | m_get_time_stamp index channel => discard (get_time_stamp index channel)
  | m_get_all_scans_sizes index => discard (get_all_scans_sizes index)
  | m_write_all_scans_to_file index filename hdr =>
      write_all_scans_to_file index filename hdr
  | m_get_pd_reference index channel => discard (get_pd_reference index channel)
  | m_run_usb_comms_test => run_usb_comms_test
  end.

(** The methods a caller invokes one after the other on the object, whether
    or not one of them raised. *)
Fixpoint invoke_all (ms : list method) : M unit :=
  match ms with
  | [] => ret tt
  | m :: rest => fun s => invoke_all rest (snd (invoke m s))
  end.

(** The life of one session object: construction, any sequence of method
    calls, destruction. *)
Definition lifetime (config_file : option string) (device_type : Z)
    (use_defaults allow_demo : bool) (ms : list method) : M unit :=
  fun s =>
    let opened := snd (__init__ config_file device_type use_defaults allow_demo s) in
    let used := snd (invoke_all ms opened) in
    __del__ used.

End Wrapper.

(** ** Vocabulary of the specification *)

(** The size query a getter starts with. *)
Definition size_query (g : getter) : NativeCall :=
  match g with
  | G_result index => getResult index None
  | G_complex_result index => getComplexResult index None None
  | G_scan index scan_index => getScan index scan_index None
  | G_complex_scan index scan_index => getComplexScan index scan_index None None
  | G_all_scans index => getAllScansSizes index
  | G_pd_values index channel => getPDValues index channel None
  | G_aux_states index => getAUXStates index None
  | G_aux_cycle_counts index channel => getAUXCycleCounts index channel None
  end.

(** The element count a size query reported: one count, or rows times
    columns for the scan matrix. *)
Definition reported_count (g : getter) (r : Response) : Z :=
  match g with
  | G_all_scans _ => out_int 0 r * out_int 1 r
  | _ => out_int 0 r
  end.

(** The size query found nothing to fetch / something to fetch. *)
Definition reports_no_data (g : getter) (r : Response) : Prop :=
  match g with
  | G_all_scans _ => out_int 0 r <= 0 \/ out_int 1 r <= 0
  | _ => out_int 0 r <= 0
  end.

Definition reports_data (g : getter) (r : Response) : Prop :=
  match g with
  | G_all_scans _ => 0 < out_int 0 r /\ 0 < out_int 1 r
  | _ => 0 < out_int 0 r
  end.

(** The capacities of the data buffers handed to a call. *)
Definition buffer_capacities (c : NativeCall) : list nat :=
  match c with
  | getResult _ (Some n) => [n]
  | getComplexResult _ re im => 
      match re with Some n => [n] | None => [] end ++
      match im with Some n => [n] | None => [] end
  | getScan _ _ (Some n) => [n]
  | getComplexScan _ _ re im =>
      match re with Some n => [n] | None => [] end ++
      match im with Some n => [n] | None => [] end
  | getAllScans _ n => [n]
  | getPDValues _ _ (Some n) => [n]
  | getAUXStates _ (Some n) => [n]
  | getAUXCycleCounts _ _ (Some n) => [n]
  | getLastErrorMessage n => [n]
  | _ => []
  end.

(** The fetch a getter issues for [n] elements: the same entry point, now
    with buffers. *)
Definition fetch_call (g : getter) (n : nat) : NativeCall :=
  match g with
  | G_result index => getResult index (Some n)
  | G_complex_result index => getComplexResult index (Some n) (Some n)
  | G_scan index scan_index => getScan index scan_index (Some n)
  | G_complex_scan index scan_index => getComplexScan index scan_index (Some n) (Some n)
  | G_all_scans index => getAllScans index n
  | G_pd_values index channel => getPDValues index channel (Some n)
  | G_aux_states index => getAUXStates index (Some n)
  | G_aux_cycle_counts index channel => getAUXCycleCounts index channel (Some n)
  end.

(** A fetched value with nothing in it. *)
Definition is_empty (v : fetched) : bool :=
  match v with
  | Flat data size => (Nat.eqb (List.length (nd_data data)) 0) && (size =? 0)
  | Complex re im size =>
      (Nat.eqb (List.length (nd_data re)) 0)
      && (Nat.eqb (List.length (nd_data im)) 0) && (size =? 0)
  | Matrix data => Nat.eqb (List.length (nd_data data)) 0
  | States states size => (Nat.eqb (List.length states) 0) && (size =? 0)
  | Counts counts size => (Nat.eqb (List.length counts) 0) && (size =? 0)
  end.

(** The state after one more logged call. *)
Definition logged (c : NativeCall) (s : State) : State :=
  {| _initialized := _initialized s; history := history s ++ [c] |}.


(** How often a log asks the library to close the session. *)
Definition is_closeSession (c : NativeCall) : bool :=
  match c with closeSession => true | _ => false end.

Definition count_closeSession (t : list NativeCall) : nat :=
  List.length (filter is_closeSession t).

(** From [s] to [s'] the log only grew, by calls other than [closeSession]. *)
Definition no_release (s s' : State) : Prop :=
  exists t, history s' = (history s ++ t)%list /\ count_closeSession t = 0%nat.

(** The same, with the flag left as it was. *)
Definition quiet_step (s s' : State) : Prop :=
  _initialized s' = _initialized s /\ no_release s s'.

(** From [s] to [s'] the session went from open to closed through exactly
    one [closeSession]. *)
Definition released (s s' : State) : Prop :=
  _initialized s = true /\ _initialized s' = false
  /\ exists t, history s' = (history s ++ t)%list /\ count_closeSession t = 1%nat.

(** A computation that never touches the flag and never closes. *)
Definition quiet {A} (m : M A) : Prop := forall s, quiet_step s (snd (m s)).

(** The configuration setters among the methods. *)
Definition is_configuration_setter (m : method) : bool :=
  match m with
  | m_set_usb_parameters _ _ _
  | m_set_test_mode _
  | m_set_wavelengths _ _
  | m_set_hardware_averaging _
  | m_set_resolution _
  | m_set_scan_count _
  | m_set_scan_clock_speed _
  | m_set_adc_gain _
  | m_set_trigger_delay _
  | m_set_trigger_mode _
  | m_set_internal_trigger_frequency _
  | m_set_integration_mode _
  | m_set_integration_time _
  | m_set_sync_out_mode _
  | m_set_sync_out_polarity _
  | m_set_aux_out_mode _
  | m_set_aux_out_polarity _
  | m_set_out_cycle_count _
  | m_set_timeout _ => true
  | _ => false
  end.

(** The calls logged on the way from [s] to [s']. *)
Definition new_calls (s s' : State) : list NativeCall :=
  skipn (List.length (history s)) (history s').

(** The two native ways of opening a session. *)
Definition is_initialise (c : NativeCall) : bool :=
  match c with
  | initialiseSession _ => true
  | initialiseSingleDeviceSession _ _ _ => true
  | _ => false
  end.

Definition count_initialise (t : list NativeCall) : nat :=
  List.length (filter is_initialise t).

(** The state [__init__] starts from once it has cleared the flag. *)
Definition closed (s : State) : State :=
  {| _initialized := false; history := history s |}.

(** *** A concrete process for the examples *)

(** A process that has made no native call yet. *)
Definition fresh : State := {| _initialized := false; history := [] |}.

(** An open session in such a process. *)
Definition open_session : State := {| _initialized := true; history := [] |}.

(** A machine on which no configuration file exists anywhere. *)
Definition bare_os : OS := {|
  isfile := fun _ => false;
  join := fun directory name => directory ++ "/" ++ name;
  dirname := fun path =>
    if (path =? "/opt/pyglaz/pyglaz/utils.py")%string then "/opt/pyglaz/pyglaz"
    else if (path =? "/opt/pyglaz/pyglaz")%string then "/opt/pyglaz"
    else "/";
  abspath___file__ := "/opt/pyglaz/pyglaz/utils.py";
  getcwd := "/home/user"
|}.

(** A response with the given return value and message, and nothing
    written anywhere else. *)
Definition respond (status : Z) (message : string) : Response := {|
  ret_value := status;
  out_ints := [];
  out_bool := false;
  out_double := 0;
  out_text := message;
  buf_double := [];
  buf_double2 := [];
  buf_uint16 := [];
  buf_bool := [];
  buf_int := []
|}.

(** The response of a call that succeeds and writes nothing. *)
Definition all_clear : Response := respond 0 EmptyString.

(** A library that answers every call with the success code and has no data. *)
Definition idle_lib : NativeLib := fun _ _ => Completes all_clear.

(** A library that answers every call with the given status code and keeps
    the given text as its last error message. *)
Definition failing_lib (status : Z) (message : string) : NativeLib :=
  fun _ _ => Completes (respond status message).

(** The run of [__init__] on that machine when the caller names a
    configuration file that does not exist. *)
Definition open_missing_config : result unit * State :=
  __init__ bare_os idle_lib (Some "missing.xml")
    GLAZ_LINESCAN_II_V2_SINGLE_DEVICE_TYPE true true fresh.

(** *** Error reporting *)

(** An operation on the session: opening it, or calling a method. *)
Inductive operation : Type :=
| Open (config_file : option string) (device_type : Z) (use_defaults allow_demo : bool)
| Call (m : method).

Definition perform (os : OS) (lib : NativeLib) (o : operation) : M unit :=
  match o with
  | Open config_file device_type use_defaults allow_demo =>
      __init__ os lib config_file device_type use_defaults allow_demo
  | Call m => invoke lib m
  end.

(** The calls whose status the wrapper looks at: every prototype that
    returns an integer, except the message accessor itself. *)
Definition status_checked (c : NativeCall) : bool :=
  match c with
  | getLastErrorMessage _ => false
  | _ => match restype c with restype_c_int => true | restype_None => false end
  end.

(** The text the wrapper puts in front of the library's message when the
    given call fails. *)
Definition failure_text (c : NativeCall) : string :=
  match c with
  | initialiseSession _ => "Failed to initialize GlazLib session with config file: "
  | initialiseSingleDeviceSession _ _ _ =>
      "Failed to initialize GlazLib session with device type: "
  | closeSession => "Failed to close GlazLib session: "
  | setTestMode _ => "Failed to set test mode: "
  | setWavelengths _ _ => "Failed to set wavelength range: "
  | setHardwareAveraging _ => "Failed to set hardware averaging: "
  | setResolution _ => "Failed to set resolution: "
  | setScanCount _ => "Failed to set scan count: "
  | setScanClockSpeed _ => "Failed to set scan clock speed: "
  | setADCGain _ => "Failed to set ADC gain: "
  | setTriggerDelay _ => "Failed to set trigger delay: "
  | setTriggerMode _ => "Failed to set trigger mode: "
  | setInternalTriggerFrequency _ => "Failed to set internal trigger frequency: "
  | setIntegrationMode _ => "Failed to set integration mode: "
  | setIntegrationTime _ => "Failed to set integration time: "
  | setSyncOutMode _ => "Failed to set sync output mode: "
  | setSyncOutPolarity _ => "Failed to set sync output polarity: "
  | setAuxOutMode _ => "Failed to set auxiliary output mode: "
  | setAuxOutPolarity _ => "Failed to set auxiliary output polarity: "
  | setOutCycleCount _ => "Failed to set output cycle count: "
  | setTimeout _ => "Failed to set timeout: "
  | captureBackground _ => "Failed to capture background: "
  | runMeasurement => "Failed to run measurement: "
  | startMeasurement => "Failed to start measurement: "
  | isMeasurementDone => "Failed to check if measurement is done: "
  | getResult _ None => "Failed to get result size: "
  | getResult _ (Some _) => "Failed to get result data: "
  | getComplexResult _ None _ => "Failed to get complex result size: "
  | getComplexResult _ (Some _) _ => "Failed to get complex result data: "
  | getTimeStamp _ _ => "Failed to get time stamp: "
  | getScan _ _ None => "Failed to get scan size: "
  | getScan _ _ (Some _) => "Failed to get scan data: "
  | getComplexScan _ _ None _ => "Failed to get complex scan size: "
  | getComplexScan _ _ (Some _) _ => "Failed to get complex scan data: "
  | getAllScansSizes _ => "Failed to get all scans sizes: "
  | getAllScans _ _ => "Failed to get all scans: "
  | writeAllScansToFile _ _ _ => "Failed to write all scans to file: "
  | getPDValues _ _ None => "Failed to get photodiode values size: "
  | getPDValues _ _ (Some _) => "Failed to get photodiode values: "
  | getPDReference _ _ => "Failed to get photodiode reference: "
  | getAUXStates _ None => "Failed to get auxiliary states size: "
  | getAUXStates _ (Some _) => "Failed to get auxiliary states: "
  | getAUXCycleCounts _ _ None => "Failed to get auxiliary cycle counts size: "
  | getAUXCycleCounts _ _ (Some _) => "Failed to get auxiliary cycle counts: "
  | runUSBCommsTest => "USB communications test failed: "
  | _ => EmptyString
  end.

(** The one failure [close] keeps to itself. *)
Definition benign_close (c : NativeCall) (status : PyObj) : bool :=
  is_closeSession c && py_eq status ERROR_NOT_INITIALISED.

(** The reading of "the raised error carries the numeric status code": some
    function recovers, from whatever [set_trigger_mode] raised, the status
    its native call had returned. *)
Definition error_carries_status_code : Prop :=
  exists code_of : exn -> Z,
    forall (lib : NativeLib) (mode : Z) (s : State) (r : Response) (e : exn),
      lib (history s) (setTriggerMode mode) = Completes r ->
      fst (set_trigger_mode lib mode s) = Raised e ->
      PyInt (code_of e) = py_return (setTriggerMode mode) r.

(** A computation in which every status-checked call that fails is followed
    by the message accessor and nothing else, and ends the computation with
    an exception: the [RuntimeError] made of the call's failure text and the
    fetched message whenever the accessor comes back. *)
Definition reports (lib : NativeLib) {A} (m : M A) : Prop :=
  forall s,
    (exists t, history (snd (m s)) = (history s ++ t)%list)
    /\ forall pre c post r,
         new_calls s (snd (m s)) = (pre ++ c :: post)%list ->
         status_checked c = true ->
         lib (history s ++ pre)%list c = Completes r ->
         py_return c r <> ERROR_NONE ->
         post = [getLastErrorMessage 1024]
         /\ (exists e, fst (m s) = Raised e)
         /\ forall answer,
              lib (history s ++ pre ++ [c])%list (getLastErrorMessage 1024)
                = Completes answer ->
              fst (m s)
              = Raised (Exn RuntimeError (failure_text c ++ out_text answer)).

(** A library that rejects every trigger mode, and everything else. *)
Definition rejecting_lib : NativeLib := failing_lib 8 "invalid trigger mode".

(** *** A simulated spectrometer *)

(** A successful response that writes the given output cells and buffers. *)
Definition measured (ints : list Z) (doubles : list c_double) (samples : list Z)
    : Response := {|
  ret_value := 0;
  out_ints := ints;
  out_bool := true;
  out_double := 0;
  out_text := EmptyString;
  buf_double := doubles;
  buf_double2 := doubles;
  buf_uint16 := samples;
  buf_bool := [];
  buf_int := []
|}.

(** What that device answers to the two calls of [get_all_scans]. *)
Definition demo_sizes : Response := measured [2; 3] [] [].

Definition demo_samples : Response :=
  measured [] [] [100; 200; 300; 400; 500; 65535].

(** A device holding one three-point result and a scan matrix of two scans
    of three pixels; every other call succeeds and writes nothing. *)
Definition demo_lib : NativeLib := fun _ c =>
  match c with
  | getResult _ None => Completes (measured [3] [] [])
  | getResult _ (Some _) => Completes (measured [3] [11; 22; 33] [])
  | getAllScansSizes _ => Completes demo_sizes
  | getAllScans _ _ => Completes demo_samples
  | _ => Completes all_clear
  end.


(** * Further code of the package *)

(** ** Listing configuration files ([utils.py]) *)

(** The directories [list_available_configs] walks.  [os.listdir] raises
    [OSError] on a directory it cannot read. *)
Record Directories : Type := {
  isdir : string -> bool;                      (* os.path.isdir *)
  listdir : string -> result (list string)     (* os.listdir *)
}.

Section Listing.

Variable os : OS.
Variable fs : Directories.

(** [for file in files: if file.lower().endswith('.xml'):
    config_files.append(os.path.join(directory, file))]. *)
Fixpoint collect_xml (directory : string) (files config_files : list string)
    : list string :=
  match files with
  | [] => config_files
  | file :: rest =>
      collect_xml directory rest
        (if endswith (lower file) ".xml"
         then config_files ++ [join os directory file]
         else config_files)
  end.

(** The loop over the search directories. *)
Fixpoint scan_directories (search_dirs config_files : list string)
    : result (list string) :=
  match search_dirs with
  | [] => Returned config_files
  | directory :: rest =>
      if isdir fs directory then
        match listdir fs directory with
        | Returned files =>
            scan_directories rest (collect_xml directory files config_files)
        | Raised e => Raised e
        end
      else scan_directories rest config_files
  end.

Definition list_available_configs (search_dirs : option (list string))
    : result (list string) :=
  let search_dirs :=
    match search_dirs with
    | None =>
        let pkg_dir := dirname os (abspath___file__ os) in
        [ join os (dirname os pkg_dir) "configs"; pkg_dir; getcwd os ]
    | Some dirs => dirs
    end in
  scan_directories search_dirs [].

End Listing.

(** ** Loading the library ([_bindings.py]) *)

(** What [_find_library] asks of the interpreter and the machine.  A handle
    is whatever [ctypes.cdll.LoadLibrary] returns; [None] stands for the
    [OSError] of a failed load. *)
Record Loader (Handle : Type) : Type := {
  sys_platform : string;
  sys_maxsize : Z;
  bindings___file__ : string;             (* os.path.abspath(__file__) *)
  path_exists : string -> bool;           (* os.path.exists *)
  LoadLibrary : string -> option Handle
}.
Arguments sys_platform {Handle} _.
Arguments sys_maxsize {Handle} _.
Arguments bindings___file__ {Handle} _.
Arguments path_exists {Handle} _ _.
Arguments LoadLibrary {Handle} _ _.

Section FindLibrary.

Variable os : OS.
Context {Handle : Type}.
Variable machine : Loader Handle.

(** [os.path.join(a, p1, ..., pn)], joining one component after the other. *)
Definition join_all (a : string) (parts : list string) : string :=
  fold_left (join os) parts a.

(** The candidate paths for the platform, in the order they are tried. *)
Definition lib_paths : result (list string) :=
  let here := dirname os (bindings___file__ machine) in
  if (sys_platform machine =? "win32")%string then
    if 2 ^ 32 <? sys_maxsize machine then
      Returned [ join_all here [".."; "lib"; "win64"; "GlazLib.dll"];
                 join_all here [".."; "lib"; "win64-static"; "GlazLib.dll"] ]
    else
      Returned [ join_all here [".."; "lib"; "win32"; "GlazLib.dll"];
                 join_all here [".."; "lib"; "win32-static"; "GlazLib.dll"] ]
  else if (sys_platform machine =? "linux")%string then
    Returned [ join_all here [".."; "lib"; "linux64"; "libGlazLib.so.9.23.0"] ]
  else
    Raised (Exn RuntimeError ("Unsupported platform: " ++ sys_platform machine)).

(** [for lib_path in lib_paths: if exists(lib_path): try: return
    LoadLibrary(lib_path) except OSError: ...]. *)
Fixpoint load_first (paths : list string) : option Handle :=
  match paths with
  | [] => None
  | lib_path :: rest =>
      if path_exists machine lib_path then
        match LoadLibrary machine lib_path with
        | Some handle => Some handle
        | None => load_first rest
        end
      else load_first rest
  end.

Definition _find_library : result Handle :=
  match lib_paths with
  | Raised e => Raised e
  | Returned paths =>
      match load_first paths with
      | Some handle => Returned handle
      | None =>
          Raised (Exn RuntimeError
            ("Could not find or load GlazLib library. Looked in: "
               ++ String.concat ", " paths))
      end
  end.

End FindLibrary.

(** A candidate that cannot be used: it is not there, or it does not load. *)
Definition unusable {Handle} (machine : Loader Handle) (path : string) : Prop :=
  path_exists machine path = false \/ LoadLibrary machine path = None.

(** The bare machine, with the directory of [_bindings.py] known. *)
Definition package_os : OS := {|
  isfile := isfile bare_os;
  join := join bare_os;
  dirname := fun path =>
    if (path =? "/opt/pyglaz/pyglaz/_bindings.py")%string
    then "/opt/pyglaz/pyglaz" else dirname bare_os path;
  abspath___file__ := abspath___file__ bare_os;
  getcwd := getcwd bare_os
|}.

(** A 64-bit Windows machine on which the dynamic build is present but does
    not load, and the static build loads as handle 2. *)
Definition broken_dynamic_build : Loader nat := {|
  sys_platform := "win32";
  sys_maxsize := 2 ^ 63 - 1;
  bindings___file__ := "/opt/pyglaz/pyglaz/_bindings.py";
  path_exists := fun _ => true;
  LoadLibrary := fun path =>
    if (path =? "/opt/pyglaz/pyglaz/../lib/win64-static/GlazLib.dll")%string
    then Some 2%nat else None
|}.

(** A macOS machine: not a platform [_find_library] knows. *)
Definition unsupported_machine : Loader nat := {|
  sys_platform := "darwin";
  sys_maxsize := 2 ^ 63 - 1;
  bindings___file__ := "/opt/pyglaz/pyglaz/_bindings.py";
  path_exists := fun _ => true;
  LoadLibrary := fun _ => Some 1%nat
|}.

(** ** Looking up configuration files *)

(** The file name [find_config_file] searches for. *)
Definition with_xml_extension (config_name : string) : string :=
  if negb (endswith (lower config_name) ".xml")
  then config_name ++ ".xml" else config_name.

(** A machine whose working directory holds a double-spectrometer
    configuration and whose package directory holds a single-spectrometer
    one. *)
Definition lab_os : OS := {|
  isfile := fun path =>
    (path =? "/opt/pyglaz/configs/double_spectrometer.xml")%string
    || (path =? "/home/user/single_spectrometer.xml")%string
    || (path =? "/home/user/Lab.XML")%string;
  join := join bare_os;
  dirname := dirname bare_os;
  abspath___file__ := abspath___file__ bare_os;
  getcwd := getcwd bare_os
|}.

(** The directories searched: the caller's, or the three standard ones (the
    [configs] directory beside the package, the package directory, the
    working directory). *)
Definition search_path (os : OS) (search_dirs : option (list string))
    : list string :=
  match search_dirs with
  | Some dirs => dirs
  | None =>
      let pkg_dir := dirname os (abspath___file__ os) in
      [ join os (dirname os pkg_dir) "configs"; pkg_dir; getcwd os ]
  end.

(** [path] is an XML file of an existing, readable search directory. *)
Definition listed_xml (os : OS) (fs : Directories) (dirs : list string)
    (path : string) : Prop :=
  exists directory files file,
    In directory dirs
    /\ isdir fs directory = true
    /\ listdir fs directory = Returned files
    /\ In file files
    /\ endswith (lower file) ".xml" = true
    /\ path = join os directory file.

(** The directories of the laboratory machine: the working directory holds
    two configurations and a text file, the package directory cannot be
    read, and there is no [configs] directory. *)
Definition lab_directories : Directories := {|
  isdir := fun directory =>
    (directory =? "/home/user")%string || (directory =? "/opt/pyglaz/pyglaz")%string;
  listdir := fun directory =>
    if (directory =? "/home/user")%string
    then Returned ["single_spectrometer.xml"; "notes.txt"; "Lab.XML"]
    else Raised (Exn OSError "Permission denied")
|}.

(** ** The session object: further vocabulary *)

(** The same process with the flag of the object set to [b]. *)
Definition with_flag (b : bool) (s : State) : State :=
  {| _initialized := b; history := history s |}.

(** A computation that behaves the same whatever the flag, and hands the
    flag on as it found it. *)
Definition flag_blind {A} (m : M A) : Prop :=
  forall s b, m (with_flag b s) = (fst (m s), with_flag b (snd (m s))).

(** The native call a method starts with, with the arguments it hands over. *)
Definition first_call (m : method) : NativeCall :=
  match m with
  | m_close => closeSession
  | m_get_version => getVersion
  | m_get_last_error_message => getLastErrorMessage 1024
  | m_get_usb_parameters => getUSBParameters
  | m_set_usb_parameters timeout bulk_size queue_size =>
      setUSBParameters timeout bulk_size queue_size
  | m_enable_data_stream_log enable => enableDataStreamLog enable
  | m_reset_all_devices => resetAllDevices
  | m_reset_all_ports => resetAllPorts
  | m_set_test_mode mode => setTestMode mode
  | m_set_wavelengths lo hi => setWavelengths lo hi
  | m_set_hardware_averaging averaging => setHardwareAveraging averaging
  | m_set_resolution resolution => setResolution resolution
  | m_set_scan_count count => setScanCount count
  | m_set_scan_clock_speed speed => setScanClockSpeed speed
  | m_set_adc_gain gain => setADCGain gain
  | m_set_trigger_delay delay => setTriggerDelay delay
  | m_set_trigger_mode mode => setTriggerMode mode
  | m_set_internal_trigger_frequency f => setInternalTriggerFrequency f
  | m_set_integration_mode mode => setIntegrationMode mode
  | m_set_integration_time time => setIntegrationTime time
  | m_set_sync_out_mode mode => setSyncOutMode mode
  | m_set_sync_out_polarity polarity => setSyncOutPolarity polarity
  | m_set_aux_out_mode mode => setAuxOutMode mode
  | m_set_aux_out_polarity polarity => setAuxOutPolarity polarity
  | m_set_out_cycle_count count => setOutCycleCount count
  | m_set_timeout timeout => setTimeout timeout
  | m_capture_background count => captureBackground count
  | m_run_measurement => runMeasurement
  | m_start_measurement => startMeasurement
  | m_is_measurement_done => isMeasurementDone
  | m_get g => size_query g
  | m_get_time_stamp index channel => getTimeStamp index channel
  | m_get_all_scans_sizes index => getAllScansSizes index
  | m_write_all_scans_to_file index filename hdr =>
      writeAllScansToFile index filename hdr
  | m_get_pd_reference index channel => getPDReference index channel
  | m_run_usb_comms_test => runUSBCommsTest
  end.

(** The methods that make one status-checked call and return nothing. *)
Definition is_command (m : method) : bool :=
  match m with
  | m_set_usb_parameters _ _ _ => false
  | m_capture_background _
  | m_run_measurement
  | m_start_measurement
  | m_write_all_scans_to_file _ _ _
  | m_run_usb_comms_test => true
  | _ => is_configuration_setter m
  end.

(** The methods over prototypes without a status, and the accessor, whose
    status the wrapper drops. *)
Definition is_unchecked (m : method) : bool :=
  match m with
  | m_get_version
  | m_get_last_error_message
  | m_get_usb_parameters
  | m_enable_data_stream_log _
  | m_reset_all_devices
  | m_reset_all_ports => true
  | _ => false
  end.

(** A one-dimensional [float64] array of [n] elements. *)
Definition flat_of_length (a : ndarray) (n : nat) : Prop :=
  nd_dtype a = float64
  /\ List.length (nd_data a) = n
  /\ nd_shape a = [Z.of_nat n].

(** What a getter returns hangs together: every container has as many
    elements as the size returned with it says (none when that size is
    negative); a scan matrix is empty and one-dimensional, or has two
    positive dimensions whose product is the number of its samples. *)
Definition well_sized (v : fetched) : Prop :=
  match v with
  | Flat data size => flat_of_length data (Z.to_nat size)
  | Complex re im size =>
      flat_of_length re (Z.to_nat size) /\ flat_of_length im (Z.to_nat size)
  | Matrix data =>
      flat_of_length data 0
      \/ exists rows cols,
           nd_dtype data = uint16
           /\ nd_shape data = [rows; cols]
           /\ 0 < rows /\ 0 < cols
           /\ Z.of_nat (List.length (nd_data data)) = rows * cols
  | States states size => List.length states = Z.to_nat size
  | Counts counts size => List.length counts = Z.to_nat size
  end.

(** The getters that learn one element count from their size query. *)
Definition is_counted (g : getter) : bool :=
  match g with G_all_scans _ => false | _ => true end.

(** The first cells of the buffers a fetch filled, as many as the count the
    fetch left behind, in the container of the getter. *)
Definition first_cells (g : getter) (capacity : nat) (filled : Response) : fetched :=
  let size := out_int 0 filled in
  let k := Z.to_nat size in
  let doubles := firstn k (c_array 0 capacity (buf_double filled)) in
  let doubles2 := firstn k (c_array 0 capacity (buf_double2 filled)) in
  match g with
  | G_result _ => Flat (np_array doubles) size
  | G_scan _ _ => Flat (np_array doubles) size
  | G_pd_values _ _ => Flat (np_array doubles) size
  | G_complex_result _ => Complex (np_array doubles) (np_array doubles2) size
  | G_complex_scan _ _ => Complex (np_array doubles) (np_array doubles2) size
  | G_aux_states _ =>
      States (firstn k (c_array false capacity (buf_bool filled))) size
  | G_aux_cycle_counts _ _ =>
      Counts (firstn k (c_array 0 capacity (map c_int_value (buf_int filled)))) size
  | G_all_scans _ => Matrix (np_array [])
  end.

(** A device whose result grows between the size query and the fetch: three
    points are announced, five are claimed by the fetch. *)
Definition growing_lib : NativeLib := fun _ c =>
  match c with
  | getResult _ None => Completes (measured [3] [] [])
  | getResult _ (Some _) => Completes (measured [5] [11; 22; 33; 44; 55] [])
  | _ => Completes all_clear
  end.

(** A library in which every call faults. *)
Definition crashing_lib : NativeLib := fun _ _ => Throws F_OSError "access violation".

(** ** The minimal example ([examples/minimal_example.py]) *)

(** The frame of [main]: whether the local [glaz] has been assigned, and the
    process with the session object it names. *)
Record Frame : Type := {
  glaz_in_locals : bool;
  process : State
}.

(** Statements of the script: the wrapper monad over frames. *)
Definition Script (A : Type) : Type := Frame -> result A * Frame.

Definition script_ret {A} (a : A) : Script A := fun fr => (Returned a, fr).

Definition script_bind {A B} (m : Script A) (k : A -> Script B) : Script B :=
  fun fr =>
    match m fr with
    | (Returned a, fr') => k a fr'
    | (Raised e, fr') => (Raised e, fr')
    end.

(** [try: m  except Exception as e: handler e]. *)
Definition script_try_except {A} (m : Script A) (handler : exn -> Script A)
    : Script A :=
  fun fr =>
    match m fr with
    | (Returned a, fr') => (Returned a, fr')
    | (Raised e, fr') => handler e fr'
    end.

(** [try: m  finally: cleanup]: the clean-up runs however [m] ended, and
    what it raises replaces the outcome of [m]. *)
Definition script_try_finally {A} (m : Script A) (cleanup : Script unit)
    : Script A :=
  fun fr =>
    match m fr with
    | (outcome, fr') =>
        match cleanup fr' with
        | (Returned _, fr'') => (outcome, fr'')
        | (Raised e, fr'') => (Raised e, fr'')
        end
    end.

(** A method call on the object [glaz] names. *)
Definition on_glaz {A} (m : M A) : Script A :=
  fun fr =>
    match m (process fr) with
    | (outcome, s') =>
        (outcome, {| glaz_in_locals := glaz_in_locals fr; process := s' |})
    end.

(** The assignment to [glaz], once the constructor has returned. *)
Definition assign_glaz : Script unit :=
  fun fr => (Returned tt, {| glaz_in_locals := true; process := process fr |}).

(** ['glaz' in locals()]. *)
Definition glaz_is_assigned : Script bool :=
  fun fr => (Returned (glaz_in_locals fr), fr).

(** Something outside the package that may raise. *)
Definition outside {A} (r : result A) : Script A := fun fr => (r, fr).

Notation "x <~ m ;; k" := (script_bind m (fun x => k))
  (at level 61, m at next level, right associativity).
Notation "' pat <~ m ;; k" := (script_bind m (fun x => match x with pat => k end))
  (at level 61, pat pattern, m at next level, right associativity).
Notation "m ~;; k" := (script_bind m (fun _ => k))
  (at level 61, right associativity).

Section MinimalExample.

Variable os : OS.
Variable lib : NativeLib.

(** [__file__] of the script, and the plotting of the data with matplotlib,
    which is outside the package and may raise. *)
Variable example___file__ : string.
Variable show_plot : ndarray -> result unit.

Definition main : Script unit :=
  let config_file :=
    join os (join os (dirname os (dirname os example___file__)) "configs")
      "single_spectrometer.xml" in
  script_try_finally
    (script_try_except
       (on_glaz (__init__ os lib (Some config_file)
                   GLAZ_LINESCAN_II_V2_SINGLE_DEVICE_TYPE true true) ~;;
        assign_glaz ~;;
        '(major, minor) <~ on_glaz (get_version lib) ;;
        on_glaz (capture_background lib 10) ~;;
        on_glaz (run_measurement lib) ~;;
        '(data, size) <~ on_glaz (get_result lib 0) ;;
        if 0 <? size then outside (show_plot data) else script_ret tt)
       (fun e => script_ret tt))
    (assigned <~ glaz_is_assigned ;;
     if assigned then on_glaz (close lib) else script_ret tt).

End MinimalExample.

(** The frame [main] starts in. *)
Definition entry (s : State) : Frame :=
  {| glaz_in_locals := false; process := s |}.

(** A machine that has the configuration file of the example. *)
Definition example_os : OS := {|
  isfile := fun path =>
    (path =? "/opt/pyglaz/configs/single_spectrometer.xml")%string;
  join := join bare_os;
  dirname := fun path =>
    if (path =? "/opt/pyglaz/examples/minimal_example.py")%string
    then "/opt/pyglaz/examples"
    else if (path =? "/opt/pyglaz/examples")%string then "/opt/pyglaz"
    else dirname bare_os path;
  abspath___file__ := abspath___file__ bare_os;
  getcwd := getcwd bare_os
|}.

(** A device whose background capture fails. *)
Definition no_background_lib : NativeLib := fun _ c =>
  match c with
  | captureBackground _ => Completes (respond 13 "capturing backgrounds")
  | _ => Completes all_clear
  end.

(** The statements of [main] between the assignment to [glaz] and the end
    of the [try] block. *)
Definition measurement_steps (lib : NativeLib) (show_plot : ndarray -> result unit)
    : Script unit :=
  '(major, minor) <~ on_glaz (get_version lib) ;;
  on_glaz (capture_background lib 10) ~;;
  on_glaz (run_measurement lib) ~;;
  '(data, size) <~ on_glaz (get_result lib 0) ;;
  if 0 <? size then outside (show_plot data) else script_ret tt.

(** The configuration file [main] asks for. *)
Definition example_config (os : OS) (example___file__ : string) : string :=
  join os (join os (dirname os (dirname os example___file__)) "configs")
    "single_spectrometer.xml".

(** A statement that leaves the locals alone, does not touch the flag and
    does not close the session. *)
Definition script_quiet {A} (m : Script A) : Prop :=
  forall fr,
    glaz_in_locals (snd (m fr)) = glaz_in_locals fr
    /\ quiet_step (process fr) (process (snd (m fr))).
(** ** Proof tools *)

Ltac run_monad :=
  cbv [bind ret raise lift try_except call get_last_error_message
       get_initialized set_initialized discard logged] in *.

Ltac run_getters :=
  cbv [run_getter get_result get_complex_result get_scan get_complex_scan
       get_all_scans get_all_scans_sizes get_pd_values get_aux_states
       get_aux_cycle_counts size_query reports_no_data reports_data
       reported_count] in *.

Lemma py_ne_false a : py_ne a ERROR_NONE = false -> a = ERROR_NONE.
Proof.
  destruct a as [| z]; cbn; [ discriminate | ].
  intros H. apply negb_false_iff, Z.eqb_eq in H. subst. reflexivity.
Qed.

Lemma py_return_success c r :
  py_return c r = ERROR_NONE -> py_ne (py_return c r) ERROR_NONE = false.
Proof. intros ->. reflexivity. Qed.

(** ** The two-phase getters *)

(** C1. For every variable-length getter, when the size query comes back
    with the success status and a count that is zero or negative, the getter
    returns an empty container (and size 0 where it returns a size) without
    raising, and the size query is the only native call it makes: the fetch
    is never issued. *)
Theorem no_data_no_fetch (lib : NativeLib) (g : getter) (s : State) (r : Response) :
  lib (history s) (size_query g) = Completes r ->
  py_return (size_query g) r = ERROR_NONE ->
  reports_no_data g r ->
  exists v, run_getter lib g s = (Returned v, logged (size_query g) s)
            /\ is_empty v = true.
Proof.
  intros Hq Hs Hn.
  apply py_return_success in Hs.
  destruct g; run_getters; run_monad; rewrite Hq; cbn [fst snd history];
    rewrite Hs;
    try (apply Z.leb_le in Hn; rewrite Hn; eexists; split; reflexivity).
  destruct Hn as [Hn | Hn]; apply Z.leb_le in Hn; rewrite Hn;
    rewrite ?orb_true_r; eexists; split; reflexivity.
Qed.

(** What a foreign call raises is never a [RuntimeError], nor a
    [FileNotFoundError]. *)
Lemma foreign_not_RuntimeError f msg :
  is_RuntimeError (Exn (foreign_class f) msg) = false.
Proof. destruct f; reflexivity. Qed.

Lemma foreign_not_FileNotFoundError f msg :
  is_FileNotFoundError (Exn (foreign_class f) msg) = false.
Proof. destruct f; reflexivity. Qed.

(** Case analysis on whatever the library and the list comprehensions do. *)
Ltac step_world lib :=
  match goal with
  | |- context [match lib ?h ?c with _ => _ end] =>
      let E := fresh "Hlib" in destruct (lib h c) eqn:E
  | |- context [match list_comp ?d ?i with _ => _ end] =>
      let E := fresh "Hcomp" in destruct (list_comp d i) eqn:E
  | |- context [match reshape ?a ?r ?c with _ => _ end] =>
      let E := fresh "Hshape" in destruct (reshape a r c) eqn:E
  | |- context [if py_ne ?a ?b then _ else _] =>
      let E := fresh "Hstatus" in destruct (py_ne a b) eqn:E
  | |- context [if negb (py_in ?a ?l) then _ else _] =>
      let E := fresh "Hbenign" in destruct (py_in a l) eqn:E; cbn [negb]
  | |- context [if ?x <=? 0 then _ else _] =>
      let E := fresh "Hsize" in destruct (x <=? 0) eqn:E
  end.

Ltac tidy :=
  cbn [fst snd history _initialized is_RuntimeError is_FileNotFoundError exn_cls];
  rewrite ?foreign_not_RuntimeError, ?foreign_not_FileNotFoundError.

Ltac run_world lib := repeat (tidy; try step_world lib).

Lemma positive_count n : 0 < n -> (n <=? 0) = false.
Proof. intros H. apply Z.leb_gt. exact H. Qed.

(** C2. For every variable-length getter, when the size query comes back
    with the success status and a positive count n (for the scan matrix, two
    positive counts whose product is n), the very next native call is the
    fetch of the same getter, and every data buffer handed to it has capacity
    exactly n.  A getter has no size argument: n comes from the size query
    alone. *)
Theorem fetch_buffer_exact (lib : NativeLib) (g : getter) (s : State) (r : Response) :
  lib (history s) (size_query g) = Completes r ->
  py_return (size_query g) r = ERROR_NONE ->
  reports_data g r ->
  exists fetch rest,
    history (snd (run_getter lib g s))
      = (history s ++ size_query g :: fetch :: rest)%list
    /\ fetch = fetch_call g (Z.to_nat (reported_count g r))
    /\ buffer_capacities fetch <> []
    /\ Forall (fun capacity => Z.of_nat capacity = reported_count g r)
         (buffer_capacities fetch).
Proof.
  intros Hq Hs Hn.
  apply py_return_success in Hs.
  assert (Hpos : 0 < reported_count g r).
  { destruct g; cbn [reported_count reports_data] in *; try exact Hn.
    destruct Hn. apply Z.mul_pos_pos; assumption. }
  exists (fetch_call g (Z.to_nat (reported_count g r))).
  assert (Hcap : Z.of_nat (Z.to_nat (reported_count g r)) = reported_count g r)
    by (apply Z2Nat.id; lia).
  destruct g; run_getters; run_monad; rewrite Hq; cbn [fst snd history];
    rewrite Hs; cbn [fetch_call buffer_capacities app].
  all: match type of Hn with
       | _ /\ _ =>
           destruct Hn as [Hn1 Hn2];
           rewrite (positive_count _ Hn1), (positive_count _ Hn2); cbn [orb]
       | _ => rewrite (positive_count _ Hn)
       end.
  all: run_world lib.
  all: eexists; (split; [ rewrite <- ?app_assoc; cbn [app]; reflexivity | ]).
  all: split; [ reflexivity | ].
  all: split; [ discriminate | ].
  all: repeat constructor; exact Hcap.
Qed.

(** ** ctypes arrays and list comprehensions *)

Lemma c_array_length {A} (zero : A) n written :
  List.length (c_array zero n written) = n.
Proof.
  unfold c_array.
  rewrite length_firstn, length_app, repeat_length. lia.
Qed.

Lemma list_comp_window {A} (data : list A) n :
  forall k, (k + n <= List.length data)%nat ->
  list_comp data (seq k n) = Returned (firstn n (skipn k data)).
Proof.
  induction n as [| n IH]; intros k Hk.
  - reflexivity.
  - cbn [seq list_comp].
    destruct (nth_error data k) as [x |] eqn:Hx.
    + rewrite IH by lia.
      rewrite <- hd_error_skipn in Hx.
      destruct (skipn k data) as [| y tail] eqn:Hskip; [discriminate |].
      cbn in Hx. injection Hx as ->.
      replace (skipn (S k) data) with tail.
      * reflexivity.
      * change (S k) with (1 + k)%nat.
        rewrite <- skipn_skipn, Hskip. reflexivity.
    + apply nth_error_None in Hx. lia.
Qed.

(** Reading a whole ctypes array back, index by index, yields its cells. *)
Lemma list_comp_whole {A} (data : list A) :
  list_comp data (seq 0 (List.length data)) = Returned data.
Proof.
  rewrite list_comp_window by lia.
  cbn [skipn]. rewrite firstn_all. reflexivity.
Qed.

Lemma Forall_firstn_of {A} (P : A -> Prop) n :
  forall l, Forall P l -> Forall P (firstn n l).
Proof.
  induction n as [| n IH]; intros l Hl.
  - constructor.
  - destruct Hl; cbn [firstn]; constructor; auto.
Qed.

Lemma c_uint16_value_range x : 0 <= c_uint16_value x < 65536.
Proof.
  unfold c_uint16_value.
  change 65535 with (Z.ones 16).
  rewrite Z.land_ones by lia.
  apply Z.mod_pos_bound. reflexivity.
Qed.

Lemma c_uint16_array_range n written :
  Forall (fun x => 0 <= x < 65536) (c_array 0 n (map c_uint16_value written)).
Proof.
  unfold c_array. apply Forall_firstn_of. apply Forall_app. split.
  - apply Forall_map. apply Forall_forall. intros x _. apply c_uint16_value_range.
  - apply Forall_forall. intros x Hx. apply repeat_spec in Hx. subst. lia.
Qed.

(** C8. When both queried sizes are positive and the fetch comes back with
    the success status, [get_all_scans] returns a two-dimensional array of
    shape [num_scans, pixels_per_scan] and element type unsigned 16-bit; its
    flat data are the cells of the fetched buffer, every sample within the
    16-bit range, and element (r, c) is cell r * pixels_per_scan + c of the
    buffer (row-major). *)
Theorem get_all_scans_matrix (lib : NativeLib) (index : Z) (s : State)
    (sizes filled : Response) :
  let num_scans := out_int 0 sizes in
  let pixels_per_scan := out_int 1 sizes in
  let total_size := Z.to_nat (num_scans * pixels_per_scan) in
  let buffer := c_array 0 total_size (map c_uint16_value (buf_uint16 filled)) in
  lib (history s) (getAllScansSizes index) = Completes sizes ->
  py_return (getAllScansSizes index) sizes = ERROR_NONE ->
  0 < num_scans -> 0 < pixels_per_scan ->
  lib (history s ++ [getAllScansSizes index])%list (getAllScans index total_size)
    = Completes filled ->
  py_return (getAllScans index total_size) filled = ERROR_NONE ->
  exists a,
    fst (get_all_scans lib index s) = Returned a
    /\ nd_dtype a = uint16
    /\ nd_shape a = [num_scans; pixels_per_scan]
    /\ nd_data a = buffer
    /\ Z.of_nat (List.length (nd_data a)) = num_scans * pixels_per_scan
    /\ Forall (fun sample => 0 <= sample < 65536) (nd_data a)
    /\ (forall r c, 0 <= r < num_scans -> 0 <= c < pixels_per_scan ->
        nd_get2 a r c = nth_error buffer (Z.to_nat (r * pixels_per_scan + c))).
Proof.
  intros num_scans pixels_per_scan total_size buffer Hq Hs Hrows Hcols Hf Hfs.
  apply py_return_success in Hs, Hfs.
  assert (Hlen : List.length buffer = total_size) by apply c_array_length.
  assert (Htotal : Z.of_nat total_size = num_scans * pixels_per_scan).
  { unfold total_size. apply Z2Nat.id. nia. }
  exists (NdArray uint16 [num_scans; pixels_per_scan] buffer).
  split.
  - run_getters; run_monad. rewrite Hq. cbn [fst snd history].
    rewrite Hs.
    fold num_scans pixels_per_scan.
    rewrite (positive_count _ Hrows), (positive_count _ Hcols). cbn [orb].
    cbn [fst snd history _initialized].
    fold total_size. rewrite Hf. cbn [fst snd history _initialized]. rewrite Hfs.
    fold buffer. unfold range. fold total_size.
    replace (seq 0 total_size) with (seq 0 (List.length buffer))
      by (rewrite Hlen; reflexivity).
    rewrite list_comp_whole.
    unfold reshape, np_array_uint16. cbn [nd_data nd_dtype].
    rewrite Hlen, Htotal, Z.eqb_refl.
    replace (0 <=? num_scans) with true by (symmetry; apply Z.leb_le; lia).
    replace (0 <=? pixels_per_scan) with true by (symmetry; apply Z.leb_le; lia).
    reflexivity.
  - cbn [nd_dtype nd_shape nd_data].
    repeat split; try reflexivity.
    + rewrite Hlen. exact Htotal.
    + apply c_uint16_array_range.
    + intros r c Hr Hc. unfold nd_get2. cbn [nd_shape nd_data].
      replace (0 <=? r) with true by (symmetry; apply Z.leb_le; lia).
      replace (r <? num_scans) with true by (symmetry; apply Z.ltb_lt; lia).
      replace (0 <=? c) with true by (symmetry; apply Z.leb_le; lia).
      replace (c <? pixels_per_scan) with true by (symmetry; apply Z.ltb_lt; lia).
      reflexivity.
Qed.

(** ** Closing the session *)

Lemma close_when_closed lib s :
  _initialized s = false -> close lib s = (Returned tt, s).
Proof.
  intros H. unfold close. run_monad. rewrite H. reflexivity.
Qed.

(** However [close] ends, it leaves the flag cleared. *)
Lemma close_clears_flag lib s : _initialized (snd (close lib s)) = false.
Proof.
  destruct (_initialized s) eqn:Hflag.
  - unfold close. run_monad. rewrite Hflag. cbn [negb].
    cbv [py_return restype].
    run_world lib; reflexivity.
  - rewrite close_when_closed by exact Hflag. exact Hflag.
Qed.

(** C4. [close] on a session whose flag is already false returns normally,
    changes nothing and makes no native call; and from any state, a second
    [close] right after a first returns normally and leaves the state the
    first one produced. *)
Theorem close_idempotent (lib : NativeLib) (s : State) :
  (_initialized s = false -> close lib s = (Returned tt, s))
  /\ fst (close lib (snd (close lib s))) = Returned tt
  /\ snd (close lib (snd (close lib s))) = snd (close lib s).
Proof.
  split; [ apply close_when_closed | ].
  rewrite (close_when_closed lib (snd (close lib s))) by apply close_clears_flag.
  split; reflexivity.
Qed.

(** C5. [close] on an open session always calls [closeSession] first, on
    the library as it stands, calls it once, and always ends with the flag
    false, also when [closeSession] throws or returns a non-success status.
    When [closeSession] comes back with a status that is neither the success
    code nor the not-initialised code and the message accessor returns,
    [close] raises the [RuntimeError] built from the fetched message, after
    these two native calls; and it raises in no other case.  On the success
    code it returns normally after the single call; on the not-initialised
    code, on a throwing [closeSession] and on a throwing message accessor it
    returns normally as well. *)
Theorem close_fail_safe (lib : NativeLib) (s : State) :
  _initialized s = true ->
  _initialized (snd (close lib s)) = false
  /\ (exists rest,
        history (snd (close lib s)) = (history s ++ closeSession :: rest)%list
        /\ count_closeSession rest = 0%nat)
  /\ (forall r m,
        lib (history s) closeSession = Completes r ->
        py_in (py_return closeSession r) [ERROR_NONE; ERROR_NOT_INITIALISED] = false ->
        lib (history s ++ [closeSession])%list (getLastErrorMessage 1024)
        = Completes m ->
        close lib s
        = (Raised (Exn RuntimeError ("Failed to close GlazLib session: " ++ out_text m)),
           {| _initialized := false;
              history := history s ++ [closeSession; getLastErrorMessage 1024] |}))
  /\ (forall e, fst (close lib s) = Raised e ->
        exists r m,
          lib (history s) closeSession = Completes r
          /\ py_in (py_return closeSession r) [ERROR_NONE; ERROR_NOT_INITIALISED] = false
          /\ lib (history s ++ [closeSession])%list (getLastErrorMessage 1024)
             = Completes m
          /\ e = Exn RuntimeError ("Failed to close GlazLib session: " ++ out_text m))
  /\ (forall r, lib (history s) closeSession = Completes r ->
        py_return closeSession r = ERROR_NONE ->
        close lib s
        = (Returned tt,
           {| _initialized := false; history := history s ++ [closeSession] |}))
  /\ (forall r, lib (history s) closeSession = Completes r ->
        py_return closeSession r = ERROR_NOT_INITIALISED ->
        fst (close lib s) = Returned tt)
  /\ (forall f msg, lib (history s) closeSession = Throws f msg ->
        fst (close lib s) = Returned tt)
  /\ (forall r f msg, lib (history s) closeSession = Completes r ->
        lib (history s ++ [closeSession])%list (getLastErrorMessage 1024)
        = Throws f msg ->
        fst (close lib s) = Returned tt).
Proof.
  intros Hopen. split; [ apply close_clears_flag | ].
  unfold close. run_monad. rewrite Hopen. cbn [negb].
  split; [ | split; [ | split; [ | split; [ | split; [ | split ] ] ] ] ].
  - cbv [py_return restype].
    run_world lib; eexists;
      (split; [ cbn [history]; rewrite <- ?app_assoc; cbn [app]; reflexivity
              | reflexivity ]).
  - intros r m Hclose Hcritical Hmsg. rewrite Hclose.
    cbn [fst snd history _initialized].
    cbn [py_in existsb] in Hcritical.
    apply orb_false_elim in Hcritical as (Hnone & Hbenign).
    apply orb_false_elim in Hbenign as (Hbenign & _).
    unfold py_ne. rewrite Hnone. cbn [negb fst snd history _initialized].
    rewrite Hmsg. cbn [fst snd history _initialized py_in existsb].
    rewrite Hbenign. cbn [orb negb fst snd is_RuntimeError exn_cls history
                          _initialized].
    rewrite <- app_assoc. reflexivity.
  - intros e.
    destruct (lib (history s) closeSession) as [r | f msg] eqn:Hclose;
      cbn [fst snd history _initialized].
    + destruct (py_ne (py_return closeSession r) ERROR_NONE) eqn:Hne;
        cbn [fst snd history _initialized].
      * destruct (lib (history s ++ [closeSession])%list (getLastErrorMessage 1024))
          as [m | f msg] eqn:Hmsg; cbn [fst snd history _initialized].
        -- destruct (py_in (py_return closeSession r) [ERROR_NOT_INITIALISED])
             eqn:Hbenign; cbn [negb fst snd is_RuntimeError exn_cls].
           ++ discriminate.
           ++ intros [= <-]. exists r, m. repeat split.
              cbn [py_in existsb] in *.
              unfold py_ne in Hne. apply negb_true_iff in Hne.
              rewrite Hne. exact Hbenign.
        -- rewrite foreign_not_RuntimeError. discriminate.
      * discriminate.
    + rewrite foreign_not_RuntimeError. discriminate.
  - intros r Hclose Hstatus. rewrite Hclose, Hstatus. reflexivity.
  - intros r Hclose Hstatus. rewrite Hclose, Hstatus.
    cbn [fst snd history _initialized py_ne py_eq ERROR_NONE ERROR_NOT_INITIALISED
         Z.eqb negb].
    destruct (lib (history s ++ [closeSession])%list (getLastErrorMessage 1024))
      as [m | f msg]; [ reflexivity | ].
    cbn [fst snd]. rewrite foreign_not_RuntimeError. reflexivity.
  - intros f msg Hclose. rewrite Hclose.
    cbn [fst snd]. rewrite foreign_not_RuntimeError. reflexivity.
  - intros r f msg Hclose Hmsg. rewrite Hclose.
    cbn [fst snd history _initialized].
    destruct (py_ne (py_return closeSession r) ERROR_NONE);
      cbn [fst snd history _initialized]; [ | reflexivity ].
    rewrite Hmsg. cbn [fst snd]. rewrite foreign_not_RuntimeError. reflexivity.
Qed.

(** ** USB parameters *)

(** C10. [set_usb_parameters] never returns normally, whatever its three
    arguments and whatever the library does: the prototype of
    [setUSBParameters] has no return value, the status the wrapper sees is
    [None], and [None != 0] sends it down the error branch.  Whenever the two
    native calls come back, what it raises is the [RuntimeError] built from
    the fetched message, and in particular so when the library left the
    success code as the return value of [setUSBParameters]. *)
Theorem set_usb_parameters_always_raises (lib : NativeLib)
    (timeout bulk_size queue_size : Z) (s : State) :
  let set := setUSBParameters timeout bulk_size queue_size in
  (forall r, py_return set r = PyNone /\ py_ne (py_return set r) ERROR_NONE = true)
  /\ (exists e, fst (set_usb_parameters lib timeout bulk_size queue_size s) = Raised e)
  /\ (forall r m,
        lib (history s) set = Completes r ->
        lib (history s ++ [set])%list (getLastErrorMessage 1024) = Completes m ->
        set_usb_parameters lib timeout bulk_size queue_size s
        = (Raised (Exn RuntimeError ("Failed to set USB parameters: " ++ out_text m)),
           logged (getLastErrorMessage 1024) (logged set s))).
Proof.
  intros set. split; [ | split ].
  - intros r. split; reflexivity.
  - unfold set_usb_parameters. run_monad. fold set.
    destruct (lib (history s) set) as [r | f msg];
      cbn [fst snd history _initialized].
    + change (py_ne (py_return set r) ERROR_NONE) with true. cbv iota.
      run_world lib; eexists; reflexivity.
    + eexists; reflexivity.
  - intros r m Hset Hmsg.
    unfold set_usb_parameters. run_monad. fold set.
    rewrite Hset. cbn [fst snd history _initialized].
    change (py_ne (py_return set r) ERROR_NONE) with true. cbv iota.
    tidy. rewrite Hmsg. reflexivity.
Qed.

(** ** What a method does to the flag and to the log *)

Lemma count_closeSession_app t u :
  count_closeSession (t ++ u) = (count_closeSession t + count_closeSession u)%nat.
Proof. unfold count_closeSession. rewrite filter_app, length_app. reflexivity. Qed.

Lemma no_release_refl s : no_release s s.
Proof. exists []. split; [ symmetry; apply app_nil_r | reflexivity ]. Qed.

Lemma no_release_trans s1 s2 s3 :
  no_release s1 s2 -> no_release s2 s3 -> no_release s1 s3.
Proof.
  intros (t & Ht & Hc) (u & Hu & Hd). exists (t ++ u)%list. split.
  - rewrite Hu, Ht, app_assoc. reflexivity.
  - rewrite count_closeSession_app, Hc, Hd. reflexivity.
Qed.

Lemma quiet_step_refl s : quiet_step s s.
Proof. split; [ reflexivity | apply no_release_refl ]. Qed.

Lemma quiet_step_trans s1 s2 s3 :
  quiet_step s1 s2 -> quiet_step s2 s3 -> quiet_step s1 s3.
Proof.
  intros [F1 N1] [F2 N2]. split.
  - congruence.
  - eapply no_release_trans; eassumption.
Qed.

Lemma quiet_ret {A} (a : A) : quiet (ret a).
Proof. intros s. apply quiet_step_refl. Qed.

Lemma quiet_raise {A} e : quiet (@raise A e).
Proof. intros s. apply quiet_step_refl. Qed.

Lemma quiet_lift {A} (r : result A) : quiet (lift r).
Proof. intros s. apply quiet_step_refl. Qed.

Lemma quiet_bind {A B} (m : M A) (k : A -> M B) :
  quiet m -> (forall a, quiet (k a)) -> quiet (bind m k).
Proof.
  intros Hm Hk s. unfold bind. specialize (Hm s).
  destruct (m s) as [[a | e] s1]; cbn [snd] in *.
  - eapply quiet_step_trans; [ exact Hm | apply Hk ].
  - exact Hm.
Qed.

Lemma quiet_call lib c : is_closeSession c = false -> quiet (call lib c).
Proof.
  intros Hc s. unfold call.
  assert (Hstep : quiet_step s
            {| _initialized := _initialized s; history := history s ++ [c] |}).
  { split; [ reflexivity | ]. exists [c]. split; [ reflexivity | ].
    unfold count_closeSession. cbn [filter]. rewrite Hc. reflexivity. }
  destruct (lib (history s) c); exact Hstep.
Qed.

Lemma quiet_get_last_error_message lib : quiet (get_last_error_message lib).
Proof.
  unfold get_last_error_message. apply quiet_bind.
  - apply quiet_call. reflexivity.
  - intros [status buffer]. apply quiet_ret.
Qed.

Ltac quiet_steps :=
  repeat first
    [ apply quiet_ret
    | apply quiet_raise
    | apply quiet_lift
    | apply quiet_get_last_error_message
    | apply quiet_call; reflexivity
    | apply quiet_bind; [ | intros ? ]
    | match goal with
      | |- quiet (match ?x with _ => _ end) => destruct x
      end
    | progress cbv zeta ].

(** Every method but [close] is quiet. *)
Lemma invoke_quiet lib m : m <> m_close -> quiet (invoke lib m).
Proof.
  intros Hm.
  destruct m as [ | | | | | | | | | | | | | | | | | | | | | | | | | | | | | | g | | | | | ];
    try congruence; try destruct g;
    cbv [invoke discard run_getter get_version get_usb_parameters
         set_usb_parameters enable_data_stream_log reset_all_devices
         reset_all_ports set_test_mode set_wavelengths set_hardware_averaging
         set_resolution set_scan_count set_scan_clock_speed set_adc_gain
         set_trigger_delay set_trigger_mode set_internal_trigger_frequency
         set_integration_mode set_integration_time set_sync_out_mode
         set_sync_out_polarity set_aux_out_mode set_aux_out_polarity
         set_out_cycle_count set_timeout capture_background run_measurement
         start_measurement is_measurement_done get_result get_complex_result
         get_time_stamp get_scan get_complex_scan get_all_scans_sizes
         get_all_scans write_all_scans_to_file get_pd_values get_pd_reference
         get_aux_states get_aux_cycle_counts run_usb_comms_test];
    quiet_steps.
Qed.

(** C6. When a configuration setter raises on an open session, whatever the
    value it was given and whatever the library answered, the flag is still
    true afterwards, and the wrapper has not asked the library to close the
    session either: the next call finds the session as open as before. *)
Theorem failing_setter_keeps_session_open (lib : NativeLib) (m : method)
    (s : State) (e : exn) :
  is_configuration_setter m = true ->
  _initialized s = true ->
  fst (invoke lib m s) = Raised e ->
  _initialized (snd (invoke lib m s)) = true
  /\ no_release s (snd (invoke lib m s)).
Proof.
  intros Hsetter Hopen _.
  assert (Hm : m <> m_close) by (intros ->; discriminate).
  destruct (invoke_quiet lib m Hm s) as [Hflag Hlog].
  split; [ congruence | exact Hlog ].
Qed.

(** ** The life of a session object *)

Ltac step_init os :=
  match goal with
  | |- context [if isfile os ?p then _ else _] =>
      let E := fresh "Hisfile" in destruct (isfile os p) eqn:E
  | |- context [match find_config_file os ?n ?d with _ => _ end] =>
      let E := fresh "Hfind" in destruct (find_config_file os n d) eqn:E
  | |- context [if is_FileNotFoundError ?e then _ else _] =>
      let E := fresh "Hfnf" in destruct (is_FileNotFoundError e) eqn:E
  | |- context [if is_RuntimeError ?e then _ else _] =>
      let E := fresh "Hrt" in destruct (is_RuntimeError e) eqn:E
  end.

Ltac run_init os lib :=
  repeat (tidy; try first [ step_init os | step_world lib ]).

Ltac no_release_now :=
  match goal with
  | |- no_release _ _ =>
      eexists; split;
      [ cbn [history]; rewrite <- ?app_assoc; cbn [app];
        first [ reflexivity | symmetry; apply app_nil_r ]
      | reflexivity ]
  end.

(** Opening never asks the library to close. *)
Lemma init_no_release os lib config_file device_type use_defaults allow_demo s :
  no_release s (snd (__init__ os lib config_file device_type use_defaults allow_demo s)).
Proof.
  unfold __init__. run_monad. cbv [py_return restype].
  destruct config_file as [config_file |]; run_init os lib; no_release_now.
Qed.

(** Closing an open session asks the library to close exactly once. *)
Lemma close_released lib s :
  _initialized s = true -> released s (snd (close lib s)).
Proof.
  intros Hopen. split; [ exact Hopen | ]. split; [ apply close_clears_flag | ].
  unfold close. run_monad. rewrite Hopen. cbn [negb]. cbv [py_return restype].
  run_world lib; eexists;
    (split; [ cbn [history]; rewrite <- ?app_assoc; cbn [app]; reflexivity
            | reflexivity ]).
Qed.

(** One method call either leaves the session as it found it, or takes it
    from open to closed through one [closeSession]. *)
Lemma invoke_step lib m s :
  quiet_step s (snd (invoke lib m s)) \/ released s (snd (invoke lib m s)).
Proof.
  destruct m; try (left; apply invoke_quiet; discriminate).
  cbn [invoke]. destruct (_initialized s) eqn:Hflag.
  - right. apply close_released. exact Hflag.
  - left. rewrite close_when_closed by exact Hflag. apply quiet_step_refl.
Qed.

Lemma quiet_then_released s1 s2 s3 :
  quiet_step s1 s2 -> released s2 s3 -> released s1 s3.
Proof.
  intros [F (t & Ht & Hc)] (O & C & u & Hu & Hd).
  split; [ congruence | ]. split; [ exact C | ].
  exists (t ++ u)%list. split.
  - rewrite Hu, Ht, app_assoc. reflexivity.
  - rewrite count_closeSession_app, Hc, Hd. reflexivity.
Qed.

Lemma released_then_quiet s1 s2 s3 :
  released s1 s2 -> quiet_step s2 s3 -> released s1 s3.
Proof.
  intros (O & C & t & Ht & Hc) [F (u & Hu & Hd)].
  split; [ exact O | ]. split; [ congruence | ].
  exists (t ++ u)%list. split.
  - rewrite Hu, Ht, app_assoc. reflexivity.
  - rewrite count_closeSession_app, Hc, Hd. reflexivity.
Qed.

(** A closed session cannot be released again. *)
Lemma released_needs_open s1 s2 : _initialized s1 = false -> ~ released s1 s2.
Proof. intros Hclosed (O & _). congruence. Qed.

Lemma invoke_all_step lib ms :
  forall s, quiet_step s (snd (invoke_all lib ms s))
            \/ released s (snd (invoke_all lib ms s)).
Proof.
  induction ms as [| m rest IH]; intros s; cbn [invoke_all].
  - left. apply quiet_step_refl.
  - destruct (invoke_step lib m s) as [Hq | Hr];
      destruct (IH (snd (invoke lib m s))) as [Hq' | Hr'].
    + left. eapply quiet_step_trans; eassumption.
    + right. eapply quiet_then_released; eassumption.
    + right. eapply released_then_quiet; eassumption.
    + exfalso. destruct Hr as (_ & C & _).
      exact (released_needs_open _ _ C Hr').
Qed.

(** C9. Over the life of a session object (construction, any sequence of
    method calls including explicit [close] calls, whether or not some of
    them raise, and destruction, which runs [close]), the wrapper issues
    [closeSession] exactly once if construction left the session open and
    never if it did not, and the object always ends closed. *)
Theorem closeSession_exactly_once (os : OS) (lib : NativeLib)
    (config_file : option string) (device_type : Z)
    (use_defaults allow_demo : bool) (ms : list method) (s : State) :
  let opened :=
    snd (__init__ os lib config_file device_type use_defaults allow_demo s) in
  let final :=
    snd (lifetime os lib config_file device_type use_defaults allow_demo ms s) in
  __del__ lib = close lib
  /\ _initialized final = false
  /\ exists t,
       history final = (history s ++ t)%list
       /\ count_closeSession t = (if _initialized opened then 1 else 0)%nat.
Proof.
  intros opened final.
  split; [ reflexivity | ].
  split; [ apply close_clears_flag | ].
  unfold final, lifetime, __del__. fold opened.
  pose proof (init_no_release os lib config_file device_type use_defaults
                allow_demo s) as (t0 & Ht0 & Hc0).
  fold opened in Ht0.
  pose proof (invoke_all_step lib ms opened) as Hsteps.
  set (used := snd (invoke_all lib ms opened)) in *.
  assert (Hgoal : exists u, history (snd (close lib used)) = (history opened ++ u)%list
            /\ count_closeSession u = (if _initialized opened then 1 else 0)%nat).
  { destruct Hsteps as [[F (u & Hu & Hd)] | (O & C & u & Hu & Hd)].
    - destruct (_initialized opened) eqn:Hflag.
      + destruct (close_released lib used) as (_ & _ & v & Hv & He);
          [ congruence | ].
        exists (u ++ v)%list. split.
        * rewrite Hv, Hu, app_assoc. reflexivity.
        * rewrite count_closeSession_app, Hd, He. reflexivity.
      + rewrite close_when_closed by congruence.
        exists u. split; assumption.
    - rewrite close_when_closed by exact C.
      rewrite O. exists u. split; assumption. }
  destruct Hgoal as (u & Hu & Hd).
  exists (t0 ++ u)%list. split.
  - rewrite Hu, Ht0, app_assoc. reflexivity.
  - rewrite count_closeSession_app, Hc0, Hd. reflexivity.
Qed.

(** ** Opening the session *)

Lemma new_calls_same s b : new_calls s {| _initialized := b; history := history s |} = [].
Proof. unfold new_calls. cbn [history]. apply skipn_all. Qed.

Lemma new_calls_app s b t :
  new_calls s {| _initialized := b; history := history s ++ t |} = t.
Proof.
  unfold new_calls. cbn [history].
  rewrite skipn_app, skipn_all, Nat.sub_diag. reflexivity.
Qed.

Ltac read_log :=
  cbn [history]; rewrite <- ?app_assoc; cbn [app];
  rewrite ?new_calls_app, ?new_calls_same.

(** [find_config_file] fails in one way only. *)
Lemma find_config_file_raises os config_name search_dirs e :
  find_config_file os config_name search_dirs = Raised e ->
  exn_cls e = FileNotFoundError.
Proof.
  unfold find_config_file.
  destruct config_name as [name |].
  - destruct (search_directories os _ _); [ discriminate | ].
    intros [= <-]. reflexivity.
  - destruct (search_defaults os _ _); [ discriminate | ].
    intros [= <-]. reflexivity.
Qed.

(** What [find_config_file] raises takes the [FileNotFoundError] branch of
    every handler. *)
Ltac classify_lookup_failure :=
  repeat match goal with
  | Hf : find_config_file _ _ _ = Raised ?e |- _ =>
      lazymatch goal with
      | _ : exn_cls e = FileNotFoundError |- _ => fail
      | _ => pose proof (find_config_file_raises _ _ _ _ Hf)
      end
  end;
  repeat match goal with
  | Hc : exn_cls ?e = FileNotFoundError, H : is_RuntimeError ?e = _ |- _ =>
      unfold is_RuntimeError in H; rewrite Hc in H; try discriminate H; clear H
  | Hc : exn_cls ?e = FileNotFoundError, H : is_FileNotFoundError ?e = _ |- _ =>
      unfold is_FileNotFoundError in H; rewrite Hc in H; try discriminate H; clear H
  end.

Ltac refute_membership :=
  repeat match goal with
  | H : _ \/ _ |- _ => destruct H as [H | H]
  | H : False |- _ => contradiction
  | H : initialiseSession _ = initialiseSingleDeviceSession _ _ _ |- _ =>
      discriminate H
  | H : getLastErrorMessage _ = initialiseSingleDeviceSession _ _ _ |- _ =>
      discriminate H
  end.

(** C7 (as amended). Opening makes at most one of the two native initialise
    calls, and makes none exactly when the caller supplied a name that is not
    a file and that [find_config_file] cannot locate either: then [__init__]
    raises that [FileNotFoundError] without any native call and with the flag
    false.  The device-type call is made only when no name was supplied and
    no default configuration file was found; a supplied name that is located
    is opened through the configuration-file call.  Whenever the flag ends up
    true, [__init__] returned normally and its single native call was one of
    the two initialise calls, which came back with the success status. *)
Theorem open_session_paths (os : OS) (lib : NativeLib)
    (config_file : option string) (device_type : Z)
    (use_defaults allow_demo : bool) (s : State) :
  let run := __init__ os lib config_file device_type use_defaults allow_demo s in
  let log := new_calls s (snd run) in
  (count_initialise log <= 1)%nat
  /\ (count_initialise log = 0%nat <->
      exists name e,
        config_file = Some name /\ isfile os name = false
        /\ find_config_file os (Some name) None = Raised e)
  /\ (forall d u a, In (initialiseSingleDeviceSession d u a) log ->
        config_file = None /\ exists e, find_config_file os None None = Raised e)
  /\ (forall name, config_file = Some name -> isfile os name = false ->
        (forall e, find_config_file os (Some name) None = Raised e ->
           run = (Raised e, closed s) /\ exn_cls e = FileNotFoundError)
        /\ (forall found, find_config_file os (Some name) None = Returned found ->
              exists rest, log = initialiseSession found :: rest))
  /\ (_initialized (snd run) = true ->
        fst run = Returned tt
        /\ exists c r,
             log = [c] /\ is_initialise c = true
             /\ lib (history s) c = Completes r
             /\ py_return c r = ERROR_NONE).
Proof.
  intros run log. subst log run.
  unfold __init__. run_monad.
  destruct config_file as [config_file |]; run_init os lib; read_log.
  all: classify_lookup_failure.
  all: cbv [count_initialise filter is_initialise List.length].
  all: repeat match goal with |- _ /\ _ => split end.
  all: try lia.
  all: try match goal with
       | |- _ <-> _ =>
           split;
           [ intros Hzero; try discriminate Hzero;
             eexists; eexists; (split; [ reflexivity | split; eassumption ])
           | intros (name & e' & Hname & Hnot & Hraise);
             try discriminate Hname; injection Hname as <-;
             try congruence ]
       end.
  all: try (intros ? ? ? Hin; cbn [In] in Hin; refute_membership;
            (split; [ reflexivity | eexists; reflexivity ])).
  all: try (intros Hflag; try discriminate Hflag;
            (split; [ reflexivity | ]);
            eexists; eexists;
            (repeat split; [ eassumption | apply py_ne_false; assumption ])).
  all: try (intros name Hname; try discriminate Hname;
            injection Hname as <-; intros Hnot; try congruence).
  all: try (split;
            [ intros e' He; rewrite Hfind in He; try discriminate He;
              injection He as <-; (split; [ reflexivity | assumption ])
            | intros found Hf; rewrite Hfind in Hf; try discriminate Hf;
              injection Hf as <-; eexists; reflexivity ]).
Qed.


(** ** Error reporting *)

Ltac unfold_methods :=
  cbv [perform invoke discard run_getter get_version get_usb_parameters
       set_usb_parameters enable_data_stream_log reset_all_devices
       reset_all_ports set_test_mode set_wavelengths set_hardware_averaging
       set_resolution set_scan_count set_scan_clock_speed set_adc_gain
       set_trigger_delay set_trigger_mode set_internal_trigger_frequency
       set_integration_mode set_integration_time set_sync_out_mode
       set_sync_out_polarity set_aux_out_mode set_aux_out_polarity
       set_out_cycle_count set_timeout capture_background run_measurement
       start_measurement is_measurement_done get_result get_complex_result
       get_time_stamp get_scan get_complex_scan get_all_scans_sizes
       get_all_scans write_all_scans_to_file get_pd_values get_pd_reference
       get_aux_states get_aux_cycle_counts run_usb_comms_test].

Lemma new_calls_of_extension s s' t :
  history s' = (history s ++ t)%list -> new_calls s s' = t.
Proof.
  intros H. unfold new_calls. rewrite H.
  rewrite skipn_app, skipn_all, Nat.sub_diag. reflexivity.
Qed.

Lemma reports_silent lib {A} (m : M A) :
  (forall s, snd (m s) = s) -> reports lib m.
Proof.
  intros Hsame s. rewrite Hsame. split.
  - exists []. symmetry. apply app_nil_r.
  - intros pre c post r Hlog.
    rewrite (new_calls_of_extension s s []) in Hlog
      by (symmetry; apply app_nil_r).
    destruct pre; discriminate Hlog.
Qed.

Lemma reports_ret lib {A} (a : A) : reports lib (ret a).
Proof. apply reports_silent. reflexivity. Qed.

Lemma reports_raise lib {A} e : reports lib (@raise A e).
Proof. apply reports_silent. reflexivity. Qed.

Lemma reports_lift lib {A} (r : result A) : reports lib (lift r).
Proof. apply reports_silent. reflexivity. Qed.

Lemma call_log lib c s : history (snd (call lib c s)) = (history s ++ [c])%list.
Proof. unfold call. destruct (lib (history s) c); reflexivity. Qed.

(** A call whose status nobody checks has nothing to report. *)
Lemma reports_call_unchecked lib c :
  status_checked c = false -> reports lib (call lib c).
Proof.
  intros Hc s. split.
  - exists [c]. apply call_log.
  - intros pre d post r Hlog Hd.
    rewrite (new_calls_of_extension _ _ _ (call_log lib c s)) in Hlog.
    destruct pre as [| x pre]; [ | destruct pre; discriminate Hlog ].
    injection Hlog as <- _. congruence.
Qed.

Lemma reports_get_last_error_message lib : reports lib (get_last_error_message lib).
Proof.
  intros s. split.
  - exists [getLastErrorMessage 1024].
    unfold get_last_error_message. run_monad.
    destruct (lib (history s) (getLastErrorMessage 1024)); reflexivity.
  - intros pre d post r Hlog Hd.
    assert (Hext : history (snd (get_last_error_message lib s))
                   = (history s ++ [getLastErrorMessage 1024])%list).
    { unfold get_last_error_message. run_monad.
      destruct (lib (history s) (getLastErrorMessage 1024)); reflexivity. }
    rewrite (new_calls_of_extension _ _ _ Hext) in Hlog.
    destruct pre as [| x pre]; [ | destruct pre; discriminate Hlog ].
    injection Hlog as <- _. discriminate Hd.
Qed.

Lemma reports_bind lib {A B} (m : M A) (k : A -> M B) :
  reports lib m -> (forall a, reports lib (k a)) -> reports lib (bind m k).
Proof.
  intros Hm Hk s. unfold bind.
  destruct (Hm s) as [(t1 & Ht1) Hfail1].
  destruct (m s) as [[a | e] s1] eqn:Hrun; cbn [fst snd] in *.
  - destruct (Hk a s1) as [(t2 & Ht2) Hfail2].
    split.
    + exists (t1 ++ t2)%list. rewrite Ht2, Ht1, app_assoc. reflexivity.
    + intros pre c post r Hlog Hc Hresp Hne.
      rewrite (new_calls_of_extension s _ (t1 ++ t2)) in Hlog
        by (rewrite Ht2, Ht1, app_assoc; reflexivity).
      assert (Hlater : forall l, pre = (t1 ++ l)%list -> t2 = (l ++ c :: post)%list ->
                post = [getLastErrorMessage 1024]
                /\ (exists e, fst (k a s1) = Raised e)
                /\ forall answer,
                     lib (history s ++ pre ++ [c])%list (getLastErrorMessage 1024)
                       = Completes answer ->
                     fst (k a s1)
                     = Raised (Exn RuntimeError (failure_text c ++ out_text answer))).
      { intros l Hpre Htail. subst pre.
        destruct (Hfail2 l c post r) as (Hpost & Hraised & Hmsg).
        - rewrite (new_calls_of_extension _ _ _ Ht2). exact Htail.
        - exact Hc.
        - rewrite Ht1, <- app_assoc. exact Hresp.
        - exact Hne.
        - split; [ exact Hpost | ]. split; [ exact Hraised | ].
          intros answer Hanswer. apply Hmsg.
          rewrite Ht1, <- app_assoc. rewrite <- app_assoc in Hanswer.
          exact Hanswer. }
      apply app_eq_app in Hlog.
      destruct Hlog as (l & [[Hpre Htail] | [Hpre Htail]]).
      * destruct l as [| x l].
        -- apply (Hlater []).
           ++ rewrite app_nil_r in *. symmetry. exact Hpre.
           ++ symmetry. exact Htail.
        -- injection Htail as <- Hpost.
           destruct (Hfail1 pre c l r) as (_ & (e & He) & _).
           ++ rewrite (new_calls_of_extension _ _ _ Ht1). exact Hpre.
           ++ exact Hc.
           ++ exact Hresp.
           ++ exact Hne.
           ++ discriminate He.
      * apply (Hlater l); assumption.
  - split.
    + exists t1. exact Ht1.
    + intros pre c post r Hlog Hc Hresp Hne.
      destruct (Hfail1 pre c post r Hlog Hc Hresp Hne) as (Hpost & _ & Hmsg).
      split; [ exact Hpost | ]. split; [ exists e; reflexivity | ].
      intros answer Hanswer. specialize (Hmsg answer Hanswer).
      injection Hmsg as ->. reflexivity.
Qed.

(** What the failure branch does: one accessor call, then an exception. *)
Lemma failure_handler_run lib A prefix s :
  exists outcome,
    bind (get_last_error_message lib)
      (fun error_msg => @raise A (Exn RuntimeError (prefix ++ error_msg))) s
    = (Raised outcome, logged (getLastErrorMessage 1024) s)
    /\ forall answer,
         lib (history s) (getLastErrorMessage 1024) = Completes answer ->
         outcome = Exn RuntimeError (prefix ++ out_text answer).
Proof.
  unfold get_last_error_message. run_monad.
  destruct (lib (history s) (getLastErrorMessage 1024)) as [answer | f msg];
    eexists; (split; [ reflexivity | ]).
  - intros ? [= <-]. reflexivity.
  - intros ? [=].
Qed.

(** The pattern every wrapper method is made of: call, compare the status
    with the success code, on failure fetch the message and raise, on
    success carry on. *)
Lemma reports_checked_call lib {A} c (k : PyObj * Response -> M A) :
  status_checked c = true ->
  (forall r, py_ne (py_return c r) ERROR_NONE = true ->
     k (py_return c r, r)
     = bind (get_last_error_message lib)
         (fun error_msg => raise (Exn RuntimeError (failure_text c ++ error_msg)))) ->
  (forall r, py_ne (py_return c r) ERROR_NONE = false ->
     reports lib (k (py_return c r, r))) ->
  reports lib (bind (call lib c) k).
Proof.
  intros Hc Hfailure Hsuccess s.
  assert (Hrun : bind (call lib c) k s
                 = match lib (history s) c with
                   | Completes r => k (py_return c r, r) (logged c s)
                   | Throws f msg => (Raised (Exn (foreign_class f) msg), logged c s)
                   end).
  { unfold bind, call. destruct (lib (history s) c); reflexivity. }
  rewrite Hrun. clear Hrun.
  destruct (lib (history s) c) as [r | f msg] eqn:Hfirst; cbn [fst snd].
  - set (s1 := logged c s).
    destruct (py_ne (py_return c r) ERROR_NONE) eqn:Hstatus.
    + rewrite (Hfailure r Hstatus).
      destruct (failure_handler_run lib A (failure_text c) s1)
        as (outcome & -> & Hanswer).
      cbn [fst snd]. unfold s1, logged. cbn [history _initialized].
      rewrite <- app_assoc. cbn [app].
      split.
      * eexists. reflexivity.
      * intros pre d post r' Hlog Hd Hresp Hne.
        rewrite new_calls_app in Hlog.
        destruct pre as [| x pre].
        -- injection Hlog as <- <-.
           split; [ reflexivity | ]. split; [ eexists; reflexivity | ].
           intros answer Hthen. rewrite app_nil_l in Hthen.
           rewrite (Hanswer answer Hthen). reflexivity.
        -- injection Hlog as <- Hlog.
           destruct pre as [| y pre]; [ | destruct pre; discriminate Hlog ].
           injection Hlog as <- _. discriminate Hd.
    + destruct (Hsuccess r Hstatus s1) as [(t & Ht) Hfail].
      split.
      * exists (c :: t). rewrite Ht. unfold s1, logged. cbn [history].
        rewrite <- app_assoc. reflexivity.
      * intros pre d post r' Hlog Hd Hresp Hne.
        rewrite (new_calls_of_extension s _ (c :: t)) in Hlog
          by (rewrite Ht; unfold s1, logged; cbn [history];
              rewrite <- app_assoc; reflexivity).
        destruct pre as [| x pre].
        -- injection Hlog as <- _.
           rewrite app_nil_r, Hfirst in Hresp. injection Hresp as <-.
           apply py_ne_false in Hstatus. contradiction.
        -- injection Hlog as <- Hlog.
           destruct (Hfail pre d post r') as (Hpost & Hraised & Hmsg).
           ++ rewrite (new_calls_of_extension _ _ _ Ht). exact Hlog.
           ++ exact Hd.
           ++ unfold s1, logged. cbn [history]. rewrite <- app_assoc. exact Hresp.
           ++ exact Hne.
           ++ split; [ exact Hpost | ]. split; [ exact Hraised | ].
              intros answer Hthen. apply Hmsg.
              unfold s1, logged. cbn [history]. rewrite <- app_assoc. exact Hthen.
  - split.
    + exists [c]. reflexivity.
    + intros pre d post r' Hlog Hd Hresp Hne.
      unfold logged in Hlog. rewrite new_calls_app in Hlog.
      destruct pre as [| x pre]; [ | destruct pre; discriminate Hlog ].
      injection Hlog as <- _.
      rewrite app_nil_r, Hfirst in Hresp. discriminate Hresp.
Qed.


Ltac report_steps lib :=
  repeat first
    [ apply reports_ret
    | apply reports_raise
    | apply reports_lift
    | apply reports_get_last_error_message
    | apply reports_checked_call;
      [ reflexivity
      | let r := fresh "r" in
        let H := fresh "Hfailed" in
        intros r H; cbv beta iota; rewrite H; reflexivity
      | let r := fresh "r" in
        let H := fresh "Hfine" in
        intros r H; cbv beta iota; rewrite H ]
    | apply reports_bind;
      [ apply reports_call_unchecked; reflexivity | intros [? ?] ]
    | apply reports_bind; [ | intros ? ]
    | match goal with
      | |- reports _ (match ?x with _ => _ end) => destruct x
      end
    | progress cbv zeta ].

(** Every method but [close] reports each failed status. *)
Lemma invoke_reports lib m : m <> m_close -> reports lib (invoke lib m).
Proof.
  intros Hm.
  destruct m as [ | | | | | | | | | | | | | | | | | | | | | | | | | | | | | | g | | | | | ];
    try congruence; try destruct g;
    unfold_methods; report_steps lib.
Qed.

Lemma new_calls_refl s : new_calls s s = [].
Proof. unfold new_calls. apply skipn_all. Qed.

Lemma method_is_close m : m = m_close \/ m <> m_close.
Proof. destruct m; (left; reflexivity) || (right; discriminate). Qed.

Lemma count_closeSession_member pre c post :
  count_closeSession (pre ++ c :: post) = 0%nat -> is_closeSession c = false.
Proof.
  rewrite count_closeSession_app. unfold count_closeSession at 2.
  cbn [filter]. destruct (is_closeSession c); [ cbn; lia | reflexivity ].
Qed.

(** All the ways of cutting a concrete log around one of its calls. *)
Ltac cut_log :=
  repeat match goal with
  | H : [] = (?pre ++ _ :: _)%list |- _ =>
      destruct pre; discriminate H
  | H : (_ :: _) = (?pre ++ _ :: _)%list |- _ =>
      let x := fresh "x" in
      let E := fresh "Hhead" in
      destruct pre as [| x pre]; cbn [app] in H;
      injection H as E H; try subst
  end.

(** After a cut, the assumptions about the library agree with the run or
    contradict it. *)
Ltac match_world :=
  rewrite ?app_nil_r in *; cbn [app] in *;
  repeat match goal with
  | H : status_checked (getLastErrorMessage _) = true |- _ => discriminate H
  | H1 : ?lib ?h ?c = Completes ?r, H2 : ?lib ?h ?c = Completes ?r' |- _ =>
      rewrite H1 in H2; injection H2 as H2; try subst
  | H1 : ?lib ?h ?c = Completes _, H2 : ?lib ?h ?c = Throws _ _ |- _ =>
      rewrite H1 in H2; discriminate H2
  | H1 : ?lib ?h ?c = Throws _ _, H2 : ?lib ?h ?c = Completes _ |- _ =>
      rewrite H1 in H2; discriminate H2
  | H : py_ne ?a ERROR_NONE = false, Hn : ?a <> ERROR_NONE |- _ =>
      apply py_ne_false in H; contradiction
  end.

Lemma close_reports lib s pre c post r :
  new_calls s (snd (close lib s)) = (pre ++ c :: post)%list ->
  status_checked c = true ->
  lib (history s ++ pre)%list c = Completes r ->
  py_return c r <> ERROR_NONE ->
  post = [getLastErrorMessage 1024]
  /\ forall answer,
       lib (history s ++ pre ++ [c])%list (getLastErrorMessage 1024)
         = Completes answer ->
       fst (close lib s)
       = if benign_close c (py_return c r) then Returned tt
         else Raised (Exn RuntimeError (failure_text c ++ out_text answer)).
Proof.
  unfold close. run_monad.
  destruct (_initialized s); cbn [negb].
  all: run_world lib; read_log; rewrite ?new_calls_refl;
    intros Hlog Hchecked Hresp Hfail.
  all: cut_log; match_world.
  all: split; [ reflexivity | ].
  all: intros answer Hanswer; match_world.
  all: cbv [benign_close is_closeSession andb].
  all: cbn [py_in existsb] in Hbenign; rewrite orb_false_r in Hbenign.
  all: rewrite Hbenign; reflexivity.
Qed.

(** C3 (as amended). Whenever a call whose status the wrapper checks comes
    back with a non-success status during an operation, the accessor with
    its 1024-byte buffer is the next native call and the last one of the
    operation; and when the accessor comes back, the operation raises the
    [RuntimeError] whose text is the failure text of that call followed by
    the fetched message.  The status code itself is not in the error.  The
    one exception is [close] on the not-initialised code, which fetches the
    message and returns normally. *)
Theorem failed_status_is_reported (os : OS) (lib : NativeLib) (o : operation)
    (s : State) (pre post : list NativeCall) (c : NativeCall) (r : Response) :
  new_calls s (snd (perform os lib o s)) = (pre ++ c :: post)%list ->
  status_checked c = true ->
  lib (history s ++ pre)%list c = Completes r ->
  py_return c r <> ERROR_NONE ->
  post = [getLastErrorMessage 1024]
  /\ forall answer,
       lib (history s ++ pre ++ [c])%list (getLastErrorMessage 1024)
         = Completes answer ->
       fst (perform os lib o s)
       = if benign_close c (py_return c r) then Returned tt
         else Raised (Exn RuntimeError (failure_text c ++ out_text answer)).
Proof.
  destruct o as [config_file device_type use_defaults allow_demo | m];
    cbn [perform].
  - unfold __init__. run_monad.
    destruct config_file as [config_file |]; run_init os lib; read_log;
      rewrite ?new_calls_refl; intros Hlog Hchecked Hresp Hfail.
    all: cut_log; match_world.
    all: split; [ reflexivity | ].
    all: intros answer Hanswer; match_world.
    all: reflexivity.
  - destruct (method_is_close m) as [-> | Hm].
    + apply close_reports.
    + intros Hlog Hchecked Hresp Hfail.
      destruct (invoke_quiet lib m Hm s) as [_ (t & Ht & Hcount)].
      rewrite (new_calls_of_extension _ _ _ Ht) in Hlog.
      rewrite Hlog in Hcount. apply count_closeSession_member in Hcount.
      destruct (invoke_reports lib m Hm s) as [_ Hreport].
      destruct (Hreport pre c post r) as (Hpost & _ & Hmsg).
      * rewrite (new_calls_of_extension _ _ _ Ht). exact Hlog.
      * exact Hchecked.
      * exact Hresp.
      * exact Hfail.
      * split; [ exact Hpost | ].
        intros answer Hanswer. unfold benign_close. rewrite Hcount.
        cbn [andb]. apply Hmsg. exact Hanswer.
Qed.

(** ** Concrete runs *)

Example lower_then_endswith :
  endswith (lower "Double_Spectrometer.XML") ".xml" = true
  /\ endswith (lower "single_spectrometer") ".xml" = false.
Proof. split; reflexivity. Qed.

Example find_config_file_adds_extension :
  find_config_file bare_os (Some "lab") None
  = Raised (Exn FileNotFoundError "Could not find configuration file: lab.xml").
Proof. reflexivity. Qed.

Example find_config_file_first_match :
  find_config_file
    {| isfile := fun path => (path =? "/home/user/single_spectrometer.xml")%string;
       join := join bare_os;
       dirname := dirname bare_os;
       abspath___file__ := abspath___file__ bare_os;
       getcwd := getcwd bare_os |}
    None None
  = Returned "/home/user/single_spectrometer.xml".
Proof. reflexivity. Qed.

Example get_result_on_demo :
  get_result demo_lib 0 open_session
  = (Returned (NdArray float64 [3] [11; 22; 33], 3),
     {| _initialized := true;
        history := [getResult 0 None; getResult 0 (Some 3%nat)] |}).
Proof. reflexivity. Qed.

Example get_all_scans_on_demo :
  fst (get_all_scans demo_lib 0 open_session)
  = Returned (NdArray uint16 [2; 3] [100; 200; 300; 400; 500; 65535]).
Proof. reflexivity. Qed.

Example set_usb_parameters_on_success :
  set_usb_parameters idle_lib 1000 512 8 open_session
  = (Raised (Exn RuntimeError "Failed to set USB parameters: "),
     {| _initialized := true;
        history := [setUSBParameters 1000 512 8; getLastErrorMessage 1024] |}).
Proof. reflexivity. Qed.

Example lifetime_on_demo :
  lifetime bare_os demo_lib None GLAZ_LINESCAN_II_V2_SINGLE_DEVICE_TYPE true true
    [m_set_scan_count 10; m_run_measurement; m_get (G_result 0); m_close; m_close]
    fresh
  = (Returned tt,
     {| _initialized := false;
        history := [initialiseSingleDeviceSession 6 true true; setScanCount 10;
                    runMeasurement; getResult 0 None; getResult 0 (Some 3%nat);
                    closeSession] |}).
Proof. reflexivity. Qed.

Lemma no_data_no_fetch_witness :
  idle_lib (history open_session) (size_query (G_aux_states 0))
    = Completes all_clear
  /\ py_return (size_query (G_aux_states 0)) all_clear = ERROR_NONE
  /\ reports_no_data (G_aux_states 0) all_clear
  /\ exists v,
       run_getter idle_lib (G_aux_states 0) open_session
       = (Returned v, logged (size_query (G_aux_states 0)) open_session)
       /\ is_empty v = true.
Proof.
  assert (H1 : idle_lib (history open_session) (size_query (G_aux_states 0))
               = Completes all_clear) by reflexivity.
  assert (H2 : py_return (size_query (G_aux_states 0)) all_clear = ERROR_NONE)
    by reflexivity.
  assert (H3 : reports_no_data (G_aux_states 0) all_clear)
    by (vm_compute; discriminate).
  exact (conj H1 (conj H2 (conj H3
    (no_data_no_fetch idle_lib (G_aux_states 0) open_session all_clear
       H1 H2 H3)))).
Defined.

Lemma fetch_buffer_exact_witness :
  demo_lib (history open_session) (size_query (G_all_scans 0))
    = Completes demo_sizes
  /\ py_return (size_query (G_all_scans 0)) demo_sizes = ERROR_NONE
  /\ reports_data (G_all_scans 0) demo_sizes
  /\ exists fetch rest,
       history (snd (run_getter demo_lib (G_all_scans 0) open_session))
         = (history open_session ++ size_query (G_all_scans 0) :: fetch :: rest)%list
       /\ fetch = fetch_call (G_all_scans 0)
                    (Z.to_nat (reported_count (G_all_scans 0) demo_sizes))
       /\ buffer_capacities fetch <> []
       /\ Forall (fun capacity =>
                    Z.of_nat capacity
                    = reported_count (G_all_scans 0) demo_sizes)
            (buffer_capacities fetch).
Proof.
  assert (H1 : demo_lib (history open_session) (size_query (G_all_scans 0))
               = Completes demo_sizes) by reflexivity.
  assert (H2 : py_return (size_query (G_all_scans 0)) demo_sizes
               = ERROR_NONE) by reflexivity.
  assert (H3 : reports_data (G_all_scans 0) demo_sizes)
    by (vm_compute; split; reflexivity).
  exact (conj H1 (conj H2 (conj H3
    (fetch_buffer_exact demo_lib (G_all_scans 0) open_session
       demo_sizes H1 H2 H3)))).
Defined.

Lemma get_all_scans_matrix_witness :
  demo_lib (history open_session) (getAllScansSizes 0) = Completes demo_sizes
  /\ py_return (getAllScansSizes 0) demo_sizes = ERROR_NONE
  /\ 0 < out_int 0 demo_sizes
  /\ 0 < out_int 1 demo_sizes
  /\ demo_lib (history open_session ++ [getAllScansSizes 0])%list
       (getAllScans 0 (Z.to_nat (out_int 0 demo_sizes * out_int 1 demo_sizes)))
     = Completes demo_samples
  /\ py_return
       (getAllScans 0 (Z.to_nat (out_int 0 demo_sizes * out_int 1 demo_sizes)))
       demo_samples
     = ERROR_NONE
  /\ exists a,
       fst (get_all_scans demo_lib 0 open_session) = Returned a
       /\ nd_dtype a = uint16
       /\ nd_shape a = [2; 3]
       /\ nd_get2 a 1 2 = Some 65535.
Proof.
  assert (H1 : demo_lib (history open_session) (getAllScansSizes 0)
               = Completes demo_sizes) by reflexivity.
  assert (H2 : py_return (getAllScansSizes 0) demo_sizes = ERROR_NONE)
    by reflexivity.
  assert (H3 : 0 < out_int 0 demo_sizes) by reflexivity.
  assert (H4 : 0 < out_int 1 demo_sizes) by reflexivity.
  assert (H5 : demo_lib (history open_session ++ [getAllScansSizes 0])%list
                 (getAllScans 0
                    (Z.to_nat (out_int 0 demo_sizes * out_int 1 demo_sizes)))
               = Completes demo_samples) by reflexivity.
  assert (H6 : py_return
                 (getAllScans 0
                    (Z.to_nat (out_int 0 demo_sizes * out_int 1 demo_sizes)))
                 demo_samples
               = ERROR_NONE) by reflexivity.
  destruct (get_all_scans_matrix demo_lib 0 open_session demo_sizes demo_samples
              H1 H2 H3 H4 H5 H6)
    as (a & Ha & Hdtype & Hshape & Hdata & _ & _ & Hcell).
  assert (Hlast : nd_get2 a 1 2 = Some 65535).
  { rewrite (Hcell 1 2); [ reflexivity | | ];
      split; reflexivity || discriminate. }
  exact (conj H1 (conj H2 (conj H3 (conj H4 (conj H5 (conj H6
    (ex_intro _ a (conj Ha (conj Hdtype (conj Hshape Hlast)))))))))).
Defined.

Lemma close_idempotent_witness :
  _initialized fresh = false
  /\ close demo_lib fresh = (Returned tt, fresh)
  /\ snd (close demo_lib (snd (close demo_lib open_session)))
     = snd (close demo_lib open_session).
Proof.
  assert (H : _initialized fresh = false) by reflexivity.
  destruct (close_idempotent demo_lib fresh) as (Hclosed & _ & _).
  destruct (close_idempotent demo_lib open_session) as (_ & _ & Htwice).
  exact (conj H (conj (Hclosed H) Htwice)).
Defined.

Lemma close_fail_safe_witness :
  _initialized open_session = true
  /\ _initialized (snd (close (failing_lib 5 "wavelengths") open_session)) = false
  /\ close (failing_lib 5 "wavelengths") open_session
     = (Raised (Exn RuntimeError "Failed to close GlazLib session: wavelengths"),
        {| _initialized := false;
           history := [closeSession; getLastErrorMessage 1024] |})
  /\ fst (close (failing_lib 1 "not initialised") open_session) = Returned tt.
Proof.
  assert (H : _initialized open_session = true) by reflexivity.
  destruct (close_fail_safe (failing_lib 5 "wavelengths") open_session H)
    as (Hflag & _ & Hraise & _).
  destruct (close_fail_safe (failing_lib 1 "not initialised") open_session H)
    as (_ & _ & _ & _ & _ & Hbenign & _).
  exact (conj H (conj Hflag (conj
    (Hraise (respond 5 "wavelengths") (respond 5 "wavelengths")
       eq_refl eq_refl eq_refl)
    (Hbenign (respond 1 "not initialised") eq_refl eq_refl)))).
Defined.

Lemma failing_setter_keeps_session_open_witness :
  is_configuration_setter (m_set_scan_count (-1)) = true
  /\ _initialized open_session = true
  /\ fst (invoke (failing_lib 7 "invalid scan count") (m_set_scan_count (-1)) open_session)
     = Raised (Exn RuntimeError "Failed to set scan count: invalid scan count")
  /\ _initialized
       (snd (invoke (failing_lib 7 "invalid scan count") (m_set_scan_count (-1))
               open_session)) = true.
Proof.
  assert (H1 : is_configuration_setter (m_set_scan_count (-1)) = true) by reflexivity.
  assert (H2 : _initialized open_session = true) by reflexivity.
  assert (H3 : fst (invoke (failing_lib 7 "invalid scan count")
                      (m_set_scan_count (-1)) open_session)
               = Raised (Exn RuntimeError "Failed to set scan count: invalid scan count"))
    by reflexivity.
  exact (conj H1 (conj H2 (conj H3
    (proj1 (failing_setter_keeps_session_open
              (failing_lib 7 "invalid scan count") (m_set_scan_count (-1))
              open_session _ H1 H2 H3))))).
Defined.

Lemma set_usb_parameters_always_raises_witness :
  idle_lib (history open_session) (setUSBParameters 1000 512 8)
    = Completes all_clear
  /\ fst (set_usb_parameters idle_lib 1000 512 8 open_session)
     = Raised (Exn RuntimeError "Failed to set USB parameters: ").
Proof.
  assert (H1 : idle_lib (history open_session) (setUSBParameters 1000 512 8)
               = Completes all_clear) by reflexivity.
  assert (H2 : idle_lib (history open_session ++ [setUSBParameters 1000 512 8])%list
                 (getLastErrorMessage 1024) = Completes all_clear)
    by reflexivity.
  destruct (set_usb_parameters_always_raises idle_lib 1000 512 8 open_session)
    as (_ & _ & Hraise).
  exact (conj H1 (f_equal fst (Hraise _ _ H1 H2))).
Defined.

Lemma failed_status_is_reported_witness :
  new_calls open_session
    (snd (perform bare_os rejecting_lib (Call (m_set_trigger_mode 7)) open_session))
    = ([] ++ setTriggerMode 7 :: [getLastErrorMessage 1024])%list
  /\ status_checked (setTriggerMode 7) = true
  /\ rejecting_lib (history open_session ++ [])%list (setTriggerMode 7)
     = Completes (respond 8 "invalid trigger mode")
  /\ py_return (setTriggerMode 7) (respond 8 "invalid trigger mode") <> ERROR_NONE
  /\ fst (perform bare_os rejecting_lib (Call (m_set_trigger_mode 7)) open_session)
     = Raised (Exn RuntimeError "Failed to set trigger mode: invalid trigger mode").
Proof.
  assert (H1 : new_calls open_session
                 (snd (perform bare_os rejecting_lib (Call (m_set_trigger_mode 7))
                         open_session))
               = ([] ++ setTriggerMode 7 :: [getLastErrorMessage 1024])%list)
    by reflexivity.
  assert (H2 : status_checked (setTriggerMode 7) = true) by reflexivity.
  assert (H3 : rejecting_lib (history open_session ++ [])%list (setTriggerMode 7)
               = Completes (respond 8 "invalid trigger mode")) by reflexivity.
  assert (H4 : py_return (setTriggerMode 7) (respond 8 "invalid trigger mode")
               <> ERROR_NONE) by (vm_compute; discriminate).
  destruct (failed_status_is_reported bare_os rejecting_lib
              (Call (m_set_trigger_mode 7)) open_session [] _
              (setTriggerMode 7) _ H1 H2 H3 H4) as (_ & Hraise).
  exact (conj H1 (conj H2 (conj H3 (conj H4
    (Hraise (respond 8 "invalid trigger mode") eq_refl))))).
Defined.

Lemma open_session_paths_witness :
  open_missing_config
  = (Raised (Exn FileNotFoundError "Could not find configuration file: missing.xml"),
     fresh)
  /\ (count_initialise (new_calls fresh (snd open_missing_config)) <= 1)%nat.
Proof.
  pose proof (open_session_paths bare_os idle_lib (Some "missing.xml")
                GLAZ_LINESCAN_II_V2_SINGLE_DEVICE_TYPE true true fresh)
    as (Hcount & _ & _ & Hmissing & _).
  destruct (Hmissing "missing.xml" eq_refl eq_refl) as (Hraise & _).
  destruct (Hraise _ eq_refl) as (Hrun & _).
  exact (conj Hrun Hcount).
Defined.

(** ** Where the specification says more than the code does *)

(** C3, as stated, fails.  Two different failure codes with the same library
    message give the very same exception from [set_trigger_mode], so nothing
    can read the status code back from the error; and [close] on the
    not-initialised code raises nothing at all. *)
Lemma status_code_not_carried :
  set_trigger_mode (failing_lib 8 "rejected") 7 open_session
  = (Raised (Exn RuntimeError "Failed to set trigger mode: rejected"),
     {| _initialized := true;
        history := [setTriggerMode 7; getLastErrorMessage 1024] |})
  /\ fst (set_trigger_mode (failing_lib 12 "rejected") 7 open_session)
     = fst (set_trigger_mode (failing_lib 8 "rejected") 7 open_session)
  /\ close (failing_lib 1 "not initialised") open_session
     = (Returned tt,
        {| _initialized := false;
           history := [closeSession; getLastErrorMessage 1024] |})
  /\ ~ error_carries_status_code.
Proof.
  split; [ reflexivity | ]. split; [ reflexivity | ]. split; [ reflexivity | ].
  intros (code_of & Hcode).
  pose proof (Hcode (failing_lib 8 "rejected") 7 open_session _ _ eq_refl eq_refl)
    as H8.
  pose proof (Hcode (failing_lib 12 "rejected") 7 open_session _ _ eq_refl eq_refl)
    as H12.
  vm_compute in H8, H12.
  rewrite H8 in H12. discriminate H12.
Qed.

(** C7, as stated, fails.  Asked to open a configuration file that exists
    nowhere, [__init__] raises [FileNotFoundError] having taken neither
    initialisation path: it makes no native call, and in particular does not
    try the device-type path. *)
Lemma missing_config_takes_no_path :
  isfile bare_os "missing.xml" = false
  /\ open_missing_config
     = (Raised (Exn FileNotFoundError
                  "Could not find configuration file: missing.xml"),
        fresh)
  /\ new_calls fresh (snd open_missing_config) = []
  /\ count_initialise (new_calls fresh (snd open_missing_config)) <> 1%nat
  /\ ~ In (initialiseSingleDeviceSession GLAZ_LINESCAN_II_V2_SINGLE_DEVICE_TYPE
             true true)
         (new_calls fresh (snd open_missing_config)).
Proof.
  split; [ reflexivity | ]. split; [ reflexivity | ]. split; [ reflexivity | ].
  split.
  - discriminate.
  - intros H. exact H.
Qed.

(** * Further properties *)

(** ** Loading the library *)

Lemma load_first_some {Handle} (machine : Loader Handle) paths handle :
  load_first machine paths = Some handle <->
  exists before path after,
    paths = (before ++ path :: after)%list
    /\ Forall (unusable machine) before
    /\ path_exists machine path = true
    /\ LoadLibrary machine path = Some handle.
Proof.
  induction paths as [| p rest IH]; cbn [load_first].
  - split; [ discriminate | ].
    intros (before & path & after & H & _). destruct before; discriminate H.
  - destruct (path_exists machine p) eqn:Hexists.
    + destruct (LoadLibrary machine p) as [h |] eqn:Hload.
      * split.
        -- intros [= <-]. exists [], p, rest. repeat split; auto.
        -- intros (before & path & after & Hsplit & Hbefore & Hthere & Hloads).
           destruct before as [| q before].
           ++ injection Hsplit as <- _. congruence.
           ++ injection Hsplit as <- _. inversion Hbefore as [| ? ? Hq _]; subst.
              destruct Hq; congruence.
      * rewrite IH. split.
        -- intros (before & path & after & -> & Hbefore & Hthere & Hloads).
           exists (p :: before), path, after. repeat split; auto.
           constructor; [ right; exact Hload | exact Hbefore ].
        -- intros (before & path & after & Hsplit & Hbefore & Hthere & Hloads).
           destruct before as [| q before].
           ++ injection Hsplit as <- _. congruence.
           ++ injection Hsplit as <- ->. inversion Hbefore; subst.
              exists before, path, after. repeat split; auto.
    + rewrite IH. split.
      * intros (before & path & after & -> & Hbefore & Hthere & Hloads).
        exists (p :: before), path, after. repeat split; auto.
        constructor; [ left; exact Hexists | exact Hbefore ].
      * intros (before & path & after & Hsplit & Hbefore & Hthere & Hloads).
        destruct before as [| q before].
        -- injection Hsplit as <- _. congruence.
        -- injection Hsplit as <- ->. inversion Hbefore; subst.
           exists before, path, after. repeat split; auto.
Qed.

Lemma load_first_none {Handle} (machine : Loader Handle) paths :
  load_first machine paths = None <-> Forall (unusable machine) paths.
Proof.
  induction paths as [| p rest IH]; cbn [load_first].
  - split; [ constructor | reflexivity ].
  - destruct (path_exists machine p) eqn:Hexists.
    + destruct (LoadLibrary machine p) as [h |] eqn:Hload.
      * split; [ discriminate | ].
        intros H. inversion H as [| ? ? Hp _]; subst. destruct Hp; congruence.
      * rewrite IH. split.
        -- intros H. constructor; [ right; exact Hload | exact H ].
        -- intros H. inversion H; assumption.
    + rewrite IH. split.
      * intros H. constructor; [ left; exact Hexists | exact H ].
      * intros H. inversion H; assumption.
Qed.

(** X1. [_find_library] returns a handle exactly when some candidate path of
    the platform exists and loads; the handle is that of the first such
    candidate in the order of the list, every candidate before it being
    absent or failing to load.  A build that is present but does not load is
    passed over for the next one. *)
Theorem find_library_first_usable {Handle} (os : OS) (machine : Loader Handle)
    (handle : Handle) :
  _find_library os machine = Returned handle <->
  exists before path after,
    lib_paths os machine = Returned (before ++ path :: after)%list
    /\ Forall (unusable machine) before
    /\ path_exists machine path = true
    /\ LoadLibrary machine path = Some handle.
Proof.
  unfold _find_library.
  destruct (lib_paths os machine) as [paths | e].
  - destruct (load_first machine paths) as [h |] eqn:Hload.
    + split.
      * intros [= ->]. apply load_first_some in Hload.
        destruct Hload as (before & path & after & -> & H).
        exists before, path, after. split; [ reflexivity | exact H ].
      * intros (before & path & after & [= ->] & H).
        assert (Hsome : load_first machine (before ++ path :: after) = Some handle).
        { apply load_first_some. exists before, path, after.
          split; [ reflexivity | exact H ]. }
        congruence.
    + split; [ discriminate | ].
      intros (before & path & after & [= ->] & H).
      assert (Hsome : load_first machine (before ++ path :: after) = Some handle).
      { apply load_first_some. exists before, path, after.
        split; [ reflexivity | exact H ]. }
      congruence.
  - split; [ discriminate | ].
    intros (before & path & after & Hpaths & _). discriminate Hpaths.
Qed.

(** X2. Whatever [_find_library] raises is a [RuntimeError].  On a platform
    other than [win32] and [linux] it is the unsupported-platform error,
    whatever files exist.  On a supported platform it raises exactly when
    every candidate is absent or fails to load, and the message lists the
    candidates and nothing of the load failure. *)
Theorem find_library_failure {Handle} (os : OS) (machine : Loader Handle) :
  (forall e, _find_library os machine = Raised e -> exn_cls e = RuntimeError)
  /\ ((sys_platform machine =? "win32")%string = false ->
      (sys_platform machine =? "linux")%string = false ->
      _find_library os machine
      = Raised (Exn RuntimeError ("Unsupported platform: " ++ sys_platform machine)))
  /\ (forall paths, lib_paths os machine = Returned paths ->
      (Forall (unusable machine) paths <->
       _find_library os machine
       = Raised (Exn RuntimeError
           ("Could not find or load GlazLib library. Looked in: "
              ++ String.concat ", " paths)))).
Proof.
  split; [ | split ].
  - intros e. unfold _find_library, lib_paths.
    destruct (sys_platform machine =? "win32")%string;
      [ destruct (2 ^ 32 <? sys_maxsize machine) | 
        destruct (sys_platform machine =? "linux")%string ];
      cbv iota;
      try (destruct (load_first machine _));
      try discriminate; intros [= <-]; reflexivity.
  - intros Hwin Hlinux. unfold _find_library, lib_paths.
    rewrite Hwin, Hlinux. reflexivity.
  - intros paths Hpaths. unfold _find_library. rewrite Hpaths.
    rewrite <- load_first_none.
    destruct (load_first machine paths); split; try discriminate; reflexivity.
Qed.

Lemma find_library_failure_witness :
  (sys_platform unsupported_machine =? "win32")%string = false
  /\ (sys_platform unsupported_machine =? "linux")%string = false
  /\ _find_library bare_os unsupported_machine
     = Raised (Exn RuntimeError "Unsupported platform: darwin").
Proof.
  exact (conj eq_refl (conj eq_refl
    (proj1 (proj2 (find_library_failure bare_os unsupported_machine))
       eq_refl eq_refl))).
Defined.

Example static_build_is_the_fallback :
  _find_library package_os broken_dynamic_build = Returned 2%nat.
Proof. reflexivity. Qed.

(** ** Looking up configuration files *)

Lemma search_directories_some os dirs name path :
  search_directories os dirs name = Some path <->
  exists before directory after,
    dirs = (before ++ directory :: after)%list
    /\ Forall (fun d => isfile os (join os d name) = false) before
    /\ isfile os (join os directory name) = true
    /\ path = join os directory name.
Proof.
  induction dirs as [| d rest IH]; cbn [search_directories].
  - split; [ discriminate | ].
    intros (before & directory & after & H & _). destruct before; discriminate H.
  - destruct (isfile os (join os d name)) eqn:Hfile.
    + split.
      * intros [= <-]. exists [], d, rest. repeat split; auto.
      * intros (before & directory & after & Hsplit & Hbefore & Hthere & ->).
        destruct before as [| q before].
        -- injection Hsplit as <- _. reflexivity.
        -- injection Hsplit as <- _. inversion Hbefore; subst. congruence.
    + rewrite IH. split.
      * intros (before & directory & after & -> & Hbefore & Hthere & ->).
        exists (d :: before), directory, after. repeat split; auto.
      * intros (before & directory & after & Hsplit & Hbefore & Hthere & ->).
        destruct before as [| q before].
        -- injection Hsplit as <- _. congruence.
        -- injection Hsplit as <- ->. inversion Hbefore; subst.
           exists before, directory, after. repeat split; auto.
Qed.

Lemma search_directories_none os dirs name :
  search_directories os dirs name = None <->
  Forall (fun d => isfile os (join os d name) = false) dirs.
Proof.
  induction dirs as [| d rest IH]; cbn [search_directories].
  - split; [ constructor | reflexivity ].
  - destruct (isfile os (join os d name)) eqn:Hfile.
    + split; [ discriminate | ].
      intros H. inversion H; subst. congruence.
    + rewrite IH. split.
      * intros H. constructor; assumption.
      * intros H. inversion H; assumption.
Qed.

(** X3. Given a name, [find_config_file] returns the file of that name
    (with [.xml] appended unless the name already ends in it, in any letter
    case) in the first of the search directories that holds it, and raises
    [FileNotFoundError] naming the file exactly when no search directory
    holds it. *)
Theorem find_config_file_first_directory (os : OS) (config_name : string)
    (search_dirs : option (list string)) :
  let name := with_xml_extension config_name in
  let dirs := search_path os search_dirs in
  (forall path,
     find_config_file os (Some config_name) search_dirs = Returned path <->
     exists before directory after,
       dirs = (before ++ directory :: after)%list
       /\ Forall (fun d => isfile os (join os d name) = false) before
       /\ isfile os (join os directory name) = true
       /\ path = join os directory name)
  /\ (Forall (fun d => isfile os (join os d name) = false) dirs <->
      find_config_file os (Some config_name) search_dirs
      = Raised (Exn FileNotFoundError
          ("Could not find configuration file: " ++ name))).
Proof.
  intros name dirs. unfold find_config_file.
  fold (with_xml_extension config_name). fold name.
  fold (search_path os search_dirs). fold dirs. split.
  - intros path. rewrite <- search_directories_some.
    destruct (search_directories os dirs name); split; congruence.
  - rewrite <- search_directories_none.
    destruct (search_directories os dirs name); split; congruence.
Qed.

Lemma lower_app a b : lower (a ++ b) = lower a ++ lower b.
Proof.
  induction a as [| c a IH]; cbn [lower append]; [ reflexivity | ].
  rewrite IH. reflexivity.
Qed.

Lemma endswith_app s suffix : endswith (s ++ suffix) suffix = true.
Proof.
  induction s as [| c s IH].
  - cbn [append]. destruct suffix; cbn [endswith]; rewrite String.eqb_refl;
      reflexivity.
  - cbn [append endswith]. rewrite IH. apply orb_true_r.
Qed.

(** X4. The extension is added once: a name that does not end in [.xml] is
    looked up exactly as the same name with [.xml] appended, and adding the
    extension to a name that has it (in whatever letter case) changes
    nothing. *)
Theorem find_config_file_extension (os : OS) (config_name : string)
    (search_dirs : option (list string)) :
  find_config_file os (Some config_name) search_dirs
  = find_config_file os (Some (with_xml_extension config_name)) search_dirs
  /\ with_xml_extension (with_xml_extension config_name)
     = with_xml_extension config_name
  /\ endswith (lower (with_xml_extension config_name)) ".xml" = true.
Proof.
  assert (Hends : endswith (lower (with_xml_extension config_name)) ".xml" = true).
  { unfold with_xml_extension.
    destruct (endswith (lower config_name) ".xml") eqn:Hhas; cbn [negb].
    - exact Hhas.
    - rewrite lower_app. apply (endswith_app (lower config_name) ".xml"). }
  assert (Hidem : with_xml_extension (with_xml_extension config_name)
                  = with_xml_extension config_name).
  { unfold with_xml_extension at 1. rewrite Hends. reflexivity. }
  split; [ | split; assumption ].
  unfold find_config_file.
  fold (with_xml_extension config_name).
  fold (with_xml_extension (with_xml_extension config_name)).
  rewrite Hidem. reflexivity.
Qed.

(** X5. Every path [find_config_file] returns is an existing file, whether
    it was asked for by name or left to the defaults, and whatever the
    search directories. *)
Theorem find_config_file_returns_a_file (os : OS) (config_name : option string)
    (search_dirs : option (list string)) (path : string) :
  find_config_file os config_name search_dirs = Returned path ->
  isfile os path = true.
Proof.
  unfold find_config_file.
  set (dirs := match search_dirs with Some d => d | None => _ end).
  destruct config_name as [name |].
  - destruct (search_directories os dirs _) as [found |] eqn:Hfound;
      [ | discriminate ].
    intros [= <-]. apply search_directories_some in Hfound.
    destruct Hfound as (before & directory & after & _ & _ & Hfile & Hpath).
      rewrite Hpath. exact Hfile.
  - cbn [search_defaults].
    destruct (search_directories os dirs "single_spectrometer.xml")
      as [found |] eqn:Hsingle.
    + intros [= <-]. apply search_directories_some in Hsingle.
      destruct Hsingle as (before & directory & after & _ & _ & Hfile & Hpath).
      rewrite Hpath. exact Hfile.
    + destruct (search_directories os dirs "double_spectrometer.xml")
        as [found |] eqn:Hdouble; [ | discriminate ].
      intros [= <-]. apply search_directories_some in Hdouble.
      destruct Hdouble as (before & directory & after & _ & _ & Hfile & Hpath).
      rewrite Hpath. exact Hfile.
Qed.

Lemma find_config_file_returns_a_file_witness :
  find_config_file lab_os None None = Returned "/home/user/single_spectrometer.xml"
  /\ isfile lab_os "/home/user/single_spectrometer.xml" = true.
Proof.
  assert (H : find_config_file lab_os None None
              = Returned "/home/user/single_spectrometer.xml") by reflexivity.
  exact (conj H (find_config_file_returns_a_file lab_os None None _ H)).
Defined.

(** X6. Without a name, [find_config_file] prefers the single-spectrometer
    configuration wherever it lies: if any search directory holds
    [single_spectrometer.xml], the one in the first such directory is
    returned, even when an earlier directory holds
    [double_spectrometer.xml]; the double-spectrometer file is returned only
    when no directory holds the single one, and the error only when no
    directory holds either. *)
Theorem find_config_file_default_order (os : OS)
    (search_dirs : option (list string)) :
  let dirs := search_path os search_dirs in
  let single := search_directories os dirs "single_spectrometer.xml" in
  let double := search_directories os dirs "double_spectrometer.xml" in
  (forall path, single = Some path ->
     find_config_file os None search_dirs = Returned path)
  /\ (forall path, single = None -> double = Some path ->
        find_config_file os None search_dirs = Returned path)
  /\ (Forall (fun d => isfile os (join os d "single_spectrometer.xml") = false
                        /\ isfile os (join os d "double_spectrometer.xml") = false)
        dirs <->
      find_config_file os None search_dirs
      = Raised (Exn FileNotFoundError
          "Could not find default configuration files: single_spectrometer.xml, double_spectrometer.xml")).
Proof.
  intros dirs single double. unfold find_config_file. cbn [search_defaults].
  fold (search_path os search_dirs). fold dirs.
  subst single double.
  split; [ | split ].
  - intros path Hsingle. rewrite Hsingle. reflexivity.
  - intros path Hsingle Hdouble. rewrite Hsingle, Hdouble. reflexivity.
  - assert (Hnone : Forall (fun d =>
                isfile os (join os d "single_spectrometer.xml") = false
                /\ isfile os (join os d "double_spectrometer.xml") = false) dirs
              <-> search_directories os dirs "single_spectrometer.xml" = None
                  /\ search_directories os dirs "double_spectrometer.xml" = None).
    { rewrite !search_directories_none.
      rewrite !Forall_forall. split.
      - intros H. split; intros d Hd; apply (H d Hd).
      - intros [H1 H2] d Hd. split; [ apply H1 | apply H2 ]; exact Hd. }
    rewrite Hnone.
    destruct (search_directories os dirs "single_spectrometer.xml"),
             (search_directories os dirs "double_spectrometer.xml");
      split; try discriminate;
      try (intros [? ?]; discriminate); try reflexivity.
    intros _. split; reflexivity.
Qed.

Example default_prefers_single_spectrometer :
  search_directories lab_os ["/opt/pyglaz/configs"; "/opt/pyglaz/pyglaz"; "/home/user"]
    "double_spectrometer.xml"
  = Some "/opt/pyglaz/configs/double_spectrometer.xml"
  /\ find_config_file lab_os None None = Returned "/home/user/single_spectrometer.xml"
  /\ find_config_file lab_os (Some "Lab.XML") None = Returned "/home/user/Lab.XML".
Proof. repeat split. Qed.

(** ** Listing configuration files *)

Lemma collect_xml_appends os directory files :
  forall config_files,
    collect_xml os directory files config_files
    = (config_files
       ++ map (join os directory)
            (filter (fun file => endswith (lower file) ".xml") files))%list.
Proof.
  induction files as [| file rest IH]; intros config_files;
    cbn [collect_xml filter map].
  - symmetry. apply app_nil_r.
  - rewrite IH. destruct (endswith (lower file) ".xml"); cbn [map].
    + rewrite <- app_assoc. reflexivity.
    + reflexivity.
Qed.

Lemma scan_directories_members os fs dirs :
  forall config_files configs,
    scan_directories os fs dirs config_files = Returned configs ->
    forall path,
      In path configs <-> In path config_files \/ listed_xml os fs dirs path.
Proof.
  induction dirs as [| d rest IH]; intros acc configs; cbn [scan_directories].
  - intros [= <-] path. split; [ auto | ].
    intros [H | (directory & _ & _ & [] & _)]. exact H.
  - destruct (isdir fs d) eqn:Hdir.
    + destruct (listdir fs d) as [files | e] eqn:Hlist; [ | discriminate ].
      intros Hscan path. rewrite (IH _ _ Hscan path).
      rewrite collect_xml_appends, in_app_iff, in_map_iff.
      split.
      * intros [[Hacc | (file & <- & Hfile)] | (directory & fs' & file & Hin & H)].
        -- left. exact Hacc.
        -- right. apply filter_In in Hfile. destruct Hfile as [Hfile Hxml].
           exists d, files, file. repeat split; auto. left. reflexivity.
        -- right. exists directory, fs', file. split; [ right; exact Hin | exact H ].
      * intros [Hacc | (directory & fs' & file & [<- | Hin] & Hd & Hl & Hf & Hx & ->)].
        -- left. left. exact Hacc.
        -- left. right. exists file. split; [ reflexivity | ].
           apply filter_In. rewrite Hlist in Hl. injection Hl as <-.
           split; assumption.
        -- right. exists directory, fs', file. repeat split; auto.
    + intros Hscan path. rewrite (IH _ _ Hscan path). split.
      * intros [Hacc | (directory & fs' & file & Hin & H)]; [ left; exact Hacc | ].
        right. exists directory, fs', file. split; [ right; exact Hin | exact H ].
      * intros [Hacc | (directory & fs' & file & [<- | Hin] & Hd & H)].
        -- left. exact Hacc.
        -- congruence.
        -- right. exists directory, fs', file. repeat split; auto; apply H.
Qed.

(** X7. When [list_available_configs] returns, it returns exactly the files
    whose name ends in [.xml] (in any letter case) of the search directories
    that exist, each joined to its directory: nothing else is listed, and
    none of them is left out. *)
Theorem list_available_configs_members (os : OS) (fs : Directories)
    (search_dirs : option (list string)) (configs : list string) :
  list_available_configs os fs search_dirs = Returned configs ->
  forall path,
    In path configs <-> listed_xml os fs (search_path os search_dirs) path.
Proof.
  unfold list_available_configs. fold (search_path os search_dirs).
  intros Hscan path.
  rewrite (scan_directories_members os fs _ _ _ Hscan path).
  split; [ intros [[] | H]; exact H | intros H; right; exact H ].
Qed.




Lemma list_available_configs_members_witness :
  list_available_configs lab_os lab_directories (Some ["/nowhere"; "/home/user"])
  = Returned ["/home/user/single_spectrometer.xml"; "/home/user/Lab.XML"]
  /\ (In "/home/user/Lab.XML"
        ["/home/user/single_spectrometer.xml"; "/home/user/Lab.XML"]
      <-> listed_xml lab_os lab_directories
            (search_path lab_os (Some ["/nowhere"; "/home/user"]))
            "/home/user/Lab.XML").
Proof.
  assert (H : list_available_configs lab_os lab_directories
                (Some ["/nowhere"; "/home/user"])
              = Returned ["/home/user/single_spectrometer.xml"; "/home/user/Lab.XML"])
    by reflexivity.
  exact (conj H (list_available_configs_members lab_os lab_directories _ _ H
                   "/home/user/Lab.XML")).
Defined.

Example list_available_configs_unreadable_directory :
  list_available_configs lab_os lab_directories None
  = Raised (Exn OSError "Permission denied").
Proof. reflexivity. Qed.

(** ** Methods do not look at the flag *)

Lemma flag_blind_ret {A} (a : A) : flag_blind (ret a).
Proof. intros s b. reflexivity. Qed.

Lemma flag_blind_raise {A} e : flag_blind (@raise A e).
Proof. intros s b. reflexivity. Qed.

Lemma flag_blind_lift {A} (r : result A) : flag_blind (lift r).
Proof. intros s b. reflexivity. Qed.

Lemma flag_blind_call lib c : flag_blind (call lib c).
Proof.
  intros s b. unfold call. cbn [with_flag history _initialized].
  destruct (lib (history s) c); reflexivity.
Qed.

Lemma flag_blind_bind {A B} (m : M A) (k : A -> M B) :
  flag_blind m -> (forall a, flag_blind (k a)) -> flag_blind (bind m k).
Proof.
  intros Hm Hk s b. unfold bind. rewrite (Hm s b).
  destruct (m s) as [[a | e] s1]; cbn [fst snd].
  - rewrite (Hk a s1 b). destruct (k a s1); reflexivity.
  - reflexivity.
Qed.

Lemma flag_blind_get_last_error_message lib :
  flag_blind (get_last_error_message lib).
Proof.
  unfold get_last_error_message. apply flag_blind_bind.
  - apply flag_blind_call.
  - intros [status buffer]. apply flag_blind_ret.
Qed.

Ltac blind_steps :=
  repeat first
    [ apply flag_blind_ret
    | apply flag_blind_raise
    | apply flag_blind_lift
    | apply flag_blind_get_last_error_message
    | apply flag_blind_call
    | apply flag_blind_bind; [ | intros ? ]
    | match goal with
      | |- flag_blind (match ?x with _ => _ end) => destruct x
      end
    | progress cbv zeta ].

(** X9. No method other than [close] looks at the flag: called on the same
    process with the flag true or false, it makes the same native calls,
    returns or raises the same, and leaves the flag as it found it.  In
    particular the wrapper does not refuse a call on a closed session; the
    call reaches the library. *)
Theorem methods_ignore_the_flag (lib : NativeLib) (m : method) (s : State)
    (b : bool) :
  m <> m_close ->
  invoke lib m (with_flag b s)
  = (fst (invoke lib m s), with_flag b (snd (invoke lib m s))).
Proof.
  intros Hm. revert s b. change (flag_blind (invoke lib m)).
  destruct m as [ | | | | | | | | | | | | | | | | | | | | | | | | | | | | | | g | | | | | ];
    try congruence; try destruct g;
    unfold_methods; blind_steps.
Qed.

Lemma methods_ignore_the_flag_witness :
  m_get (G_result 0) <> m_close
  /\ invoke demo_lib (m_get (G_result 0)) (with_flag false open_session)
     = (Returned tt,
        {| _initialized := false;
           history := [getResult 0 None; getResult 0 (Some 3%nat)] |}).
Proof.
  assert (H : m_get (G_result 0) <> m_close) by discriminate.
  exact (conj H
    (methods_ignore_the_flag demo_lib (m_get (G_result 0)) open_session false H)).
Defined.

(** ** One method call, seen from the library *)

(** X10. Every method call reaches the library: its first native call is the
    entry point of the method with the caller's arguments handed over as
    they are, with no check of their values by the wrapper, and the method
    makes at most two further native calls.  ([close] starts with
    [closeSession] when the session is open.) *)
Theorem first_native_call (lib : NativeLib) (m : method) (s : State) :
  (m = m_close -> _initialized s = true) ->
  exists rest,
    new_calls s (snd (invoke lib m s)) = first_call m :: rest
    /\ (List.length rest <= 2)%nat.
Proof.
  intros Hopen.
  destruct m as [ | | | | | | | | | | | | | | | | | | | | | | | | | | | | | | g | | | | | ].
  31: destruct g.
  all: unfold_methods; try unfold close; run_monad.
  all: try (rewrite Hopen by reflexivity; cbn [negb]).
  all: cbn [first_call size_query]; clear Hopen.
  all: run_world lib.
  all: try match goal with
       | |- context [if (?a <=? 0) || (?b <=? 0) then _ else _] =>
           destruct (a <=? 0); destruct (b <=? 0); cbn [orb]; run_world lib
       end.
  all: read_log; eexists; (split; [ reflexivity | cbn [List.length]; lia ]).
Qed.

Lemma first_native_call_witness :
  (m_close = m_close -> _initialized open_session = true)
  /\ exists rest,
       new_calls open_session
         (snd (invoke (failing_lib 5 "wavelengths") m_close open_session))
       = first_call m_close :: rest
       /\ (List.length rest <= 2)%nat.
Proof.
  assert (H : m_close = m_close -> _initialized open_session = true)
    by (intros _; reflexivity).
  exact (conj H
    (first_native_call (failing_lib 5 "wavelengths") m_close open_session H)).
Defined.

(** X11. A method that issues one status-checked call and returns nothing
    (the configuration setters other than [set_usb_parameters],
    [capture_background], [run_measurement], [start_measurement],
    [write_all_scans_to_file], [run_usb_comms_test]) returns normally when
    that call comes back with the success status, having made that one
    native call only: the message accessor is not consulted on success. *)
Theorem command_succeeds_with_one_call (lib : NativeLib) (m : method)
    (s : State) (r : Response) :
  is_command m = true ->
  lib (history s) (first_call m) = Completes r ->
  py_return (first_call m) r = ERROR_NONE ->
  invoke lib m s = (Returned tt, logged (first_call m) s).
Proof.
  intros Hcommand Hcall Hstatus. apply py_return_success in Hstatus.
  destruct m; try discriminate Hcommand;
    cbn [first_call] in *; unfold_methods; run_monad;
    rewrite Hcall; cbn [fst snd]; rewrite Hstatus; reflexivity.
Qed.

Lemma command_succeeds_with_one_call_witness :
  is_command (m_capture_background 5) = true
  /\ idle_lib (history open_session) (first_call (m_capture_background 5))
     = Completes all_clear
  /\ py_return (first_call (m_capture_background 5)) all_clear = ERROR_NONE
  /\ invoke idle_lib (m_capture_background 5) open_session
     = (Returned tt, logged (captureBackground 5) open_session).
Proof.
  exact (conj eq_refl (conj eq_refl (conj eq_refl
    (command_succeeds_with_one_call idle_lib (m_capture_background 5)
       open_session all_clear eq_refl eq_refl eq_refl)))).
Defined.

(** X12. The methods over prototypes without a status ([get_version],
    [get_usb_parameters], [enable_data_stream_log], [reset_all_devices],
    [reset_all_ports]) and [get_last_error_message] make exactly one native
    call and never consult the message accessor about it: they return
    normally whenever the call comes back, whatever it returned, and
    otherwise pass on what the call raised, which is never a
    [RuntimeError]. *)
Theorem unchecked_methods_never_report (lib : NativeLib) (m : method) (s : State) :
  is_unchecked m = true ->
  invoke lib m s
  = (match lib (history s) (first_call m) with
     | Completes _ => Returned tt
     | Throws f msg => Raised (Exn (foreign_class f) msg)
     end,
     logged (first_call m) s)
  /\ (forall e, fst (invoke lib m s) = Raised e -> is_RuntimeError e = false).
Proof.
  intros Hm.
  assert (Hrun : invoke lib m s
                 = (match lib (history s) (first_call m) with
                    | Completes _ => Returned tt
                    | Throws f msg => Raised (Exn (foreign_class f) msg)
                    end,
                    logged (first_call m) s)).
  { destruct m; try discriminate Hm;
      cbn [first_call]; unfold_methods; run_monad;
      destruct (lib (history s) _); reflexivity. }
  split; [ exact Hrun | ].
  intros e. rewrite Hrun. cbn [fst].
  destruct (lib (history s) (first_call m)); [ discriminate | ].
  intros [= <-]. apply foreign_not_RuntimeError.
Qed.

Lemma unchecked_methods_never_report_witness :
  is_unchecked m_reset_all_ports = true
  /\ invoke (failing_lib 3 "cameras") m_reset_all_ports open_session
     = (Returned tt, logged resetAllPorts open_session).
Proof.
  exact (conj eq_refl
    (proj1 (unchecked_methods_never_report (failing_lib 3 "cameras")
              m_reset_all_ports open_session eq_refl))).
Defined.

(** ** What the getters return *)

Lemma list_comp_length {A} (data : list A) idxs :
  forall items, list_comp data idxs = Returned items ->
  List.length items = List.length idxs.
Proof.
  induction idxs as [| i rest IH]; intros items; cbn [list_comp].
  - intros [= <-]. reflexivity.
  - destruct (nth_error data i); [ | discriminate ].
    destruct (list_comp data rest) as [xs | e]; [ | discriminate ].
    intros [= <-]. cbn [List.length]. rewrite (IH xs eq_refl). reflexivity.
Qed.

Lemma list_comp_range_length {A} (data : list A) size items :
  list_comp data (range size) = Returned items ->
  List.length items = Z.to_nat size.
Proof.
  intros H. apply list_comp_length in H. rewrite H. unfold range.
  apply length_seq.
Qed.

Lemma np_array_flat items n :
  List.length items = n -> flat_of_length (np_array items) n.
Proof. intros <-. repeat split. Qed.

(** X13. Whatever the library does, a value returned by a variable-length
    getter hangs together: each array or list holds exactly as many elements
    as the size returned beside it (none if the library left a negative
    size), a flat array is one-dimensional [float64] of that length, and the
    scan matrix is either empty or [uint16] of two positive dimensions whose
    product is its number of samples. *)
Theorem getter_result_is_well_sized (lib : NativeLib) (g : getter) (s : State)
    (v : fetched) :
  fst (run_getter lib g s) = Returned v -> well_sized v.
Proof.
  destruct g; run_getters; run_monad.
  all: run_world lib.
  all: try match goal with
       | |- context [if (?a <=? 0) || (?b <=? 0) then _ else _] =>
           destruct (a <=? 0) eqn:Hrows; destruct (b <=? 0) eqn:Hcols;
           cbn [orb]; run_world lib
       end.
  all: cbn [fst]; try discriminate; intros [= <-]; cbn [well_sized].
  all: repeat match goal with
       | H : list_comp _ (range _) = Returned _ |- _ =>
           apply list_comp_range_length in H
       end.
  all: try (apply np_array_flat; assumption || reflexivity).
  all: try (split; apply np_array_flat; assumption || reflexivity).
  all: try assumption.
  all: try reflexivity.
  all: try (left; apply np_array_flat; reflexivity).
  right. unfold reshape in Hshape. cbn [nd_data np_array_uint16 nd_dtype] in Hshape.
  match type of Hshape with
  | (if ?c then _ else _) = _ => destruct c eqn:Hcond; [ | discriminate Hshape ]
  end.
  apply andb_prop in Hcond. destruct Hcond as [Hcond _].
  apply andb_prop in Hcond. destruct Hcond as [Hprod _].
  injection Hshape as <-.
  eexists; eexists. cbn [nd_dtype nd_shape nd_data].
  apply Z.eqb_eq in Hprod. apply Z.leb_gt in Hrows, Hcols.
  repeat split; try assumption. symmetry. exact Hprod.
Qed.

Lemma getter_result_is_well_sized_witness :
  fst (run_getter demo_lib (G_all_scans 0) open_session)
  = Returned (Matrix (NdArray uint16 [2; 3] [100; 200; 300; 400; 500; 65535]))
  /\ well_sized (Matrix (NdArray uint16 [2; 3] [100; 200; 300; 400; 500; 65535])).
Proof.
  assert (H : fst (run_getter demo_lib (G_all_scans 0) open_session)
              = Returned (Matrix (NdArray uint16 [2; 3]
                                    [100; 200; 300; 400; 500; 65535])))
    by reflexivity.
  exact (conj H (getter_result_is_well_sized demo_lib (G_all_scans 0)
                   open_session _ H)).
Defined.

Lemma list_comp_prefix {A} (data : list A) k :
  (k <= List.length data)%nat ->
  list_comp data (seq 0 k) = Returned (firstn k data).
Proof.
  intros Hk. rewrite list_comp_window by lia. reflexivity.
Qed.

Lemma list_comp_past_the_end {A} (data : list A) k :
  forall start,
    (start <= List.length data)%nat -> (List.length data < start + k)%nat ->
    list_comp data (seq start k) = Raised (Exn IndexError "invalid index").
Proof.
  induction k as [| k IH]; intros start Hstart Hpast.
  - lia.
  - cbn [seq list_comp].
    destruct (nth_error data start) as [x |] eqn:Hx; [ | reflexivity ].
    assert (Hlt : (start < List.length data)%nat).
    { apply nth_error_Some. congruence. }
    rewrite IH by lia. reflexivity.
Qed.

Lemma range_within {A} (zero : A) capacity written size :
  size <= Z.of_nat capacity ->
  list_comp (c_array zero capacity written) (range size)
  = Returned (firstn (Z.to_nat size) (c_array zero capacity written)).
Proof.
  intros Hsize. unfold range. apply list_comp_prefix.
  rewrite c_array_length. lia.
Qed.

Lemma range_overrun {A} (zero : A) capacity written size :
  Z.of_nat capacity < size ->
  list_comp (c_array zero capacity written) (range size)
  = Raised (Exn IndexError "invalid index").
Proof.
  intros Hsize. unfold range. apply list_comp_past_the_end.
  - lia.
  - rewrite c_array_length. lia.
Qed.

(** X14. A getter reads back as many cells as the count the fetch left
    behind, not as many as the size query announced.  When both calls of a
    counted getter succeed and the fetch leaves a count within the capacity
    it allocated, the getter returns the first cells of its buffers, that
    many, with that count; when the fetch leaves a larger count, the getter
    raises [IndexError] at the first cell past the buffer and returns no
    data. *)
Theorem fetch_count_is_reread (lib : NativeLib) (g : getter) (s : State)
    (sized filled : Response) :
  let n := out_int 0 sized in
  let capacity := Z.to_nat n in
  is_counted g = true ->
  lib (history s) (size_query g) = Completes sized ->
  py_return (size_query g) sized = ERROR_NONE ->
  0 < n ->
  lib (history s ++ [size_query g])%list (fetch_call g capacity) = Completes filled ->
  py_return (fetch_call g capacity) filled = ERROR_NONE ->
  (out_int 0 filled <= n ->
     fst (run_getter lib g s) = Returned (first_cells g capacity filled))
  /\ (n < out_int 0 filled ->
        fst (run_getter lib g s) = Raised (Exn IndexError "invalid index")).
Proof.
  intros n capacity Hcounted Hq Hqs Hn Hf Hfs.
  apply py_return_success in Hqs, Hfs.
  assert (Hcap : Z.of_nat capacity = n) by (apply Z2Nat.id; lia).
  destruct g; try discriminate Hcounted;
    cbn [size_query fetch_call first_cells] in *;
    run_getters; run_monad;
    rewrite Hq; cbn [fst snd history _initialized]; rewrite Hqs;
    fold n; rewrite (positive_count _ Hn);
    cbn [fst snd history _initialized]; fold n; fold capacity;
    rewrite Hf; cbn [fst snd history _initialized]; rewrite Hfs.
  all: split; intros Hcount.
  all: rewrite ?range_within by lia; rewrite ?range_overrun by lia;
    reflexivity.
Qed.

Lemma fetch_count_is_reread_witness :
  is_counted (G_result 0) = true
  /\ growing_lib (history open_session) (size_query (G_result 0))
     = Completes (measured [3] [] [])
  /\ py_return (size_query (G_result 0)) (measured [3] [] []) = ERROR_NONE
  /\ 0 < out_int 0 (measured [3] [] [])
  /\ growing_lib (history open_session ++ [size_query (G_result 0)])%list
       (fetch_call (G_result 0) (Z.to_nat (out_int 0 (measured [3] [] []))))
     = Completes (measured [5] [11; 22; 33; 44; 55] [])
  /\ py_return
       (fetch_call (G_result 0) (Z.to_nat (out_int 0 (measured [3] [] []))))
       (measured [5] [11; 22; 33; 44; 55] [])
     = ERROR_NONE
  /\ 3 < out_int 0 (measured [5] [11; 22; 33; 44; 55] [])
  /\ fst (run_getter growing_lib (G_result 0) open_session)
     = Raised (Exn IndexError "invalid index").
Proof.
  exact (conj eq_refl (conj eq_refl (conj eq_refl (conj eq_refl (conj eq_refl
    (conj eq_refl (conj eq_refl
      (proj2 (fetch_count_is_reread growing_lib (G_result 0) open_session
                (measured [3] [] []) (measured [5] [11; 22; 33; 44; 55] [])
                eq_refl eq_refl eq_refl eq_refl eq_refl eq_refl)
         eq_refl)))))))).
Defined.

Example fewer_cells_than_announced :
  get_result
    (fun _ c => match c with
                | getResult _ None => Completes (measured [3] [] [])
                | _ => Completes (measured [2] [11; 22; 33] [])
                end) 0 open_session
  = (Returned (NdArray float64 [2] [11; 22], 2),
     {| _initialized := true;
        history := [getResult 0 None; getResult 0 (Some 3%nat)] |}).
Proof. reflexivity. Qed.

(** ** Opening, beyond the two paths *)

(** X15. [__init__] returns normally exactly when it leaves the flag true.
    Whatever it raises is a [RuntimeError] or a [FileNotFoundError], the flag
    is then false, and a [FileNotFoundError] is raised before any native
    call. *)
Theorem open_outcome (os : OS) (lib : NativeLib) (config_file : option string)
    (device_type : Z) (use_defaults allow_demo : bool) (s : State) :
  let run := __init__ os lib config_file device_type use_defaults allow_demo s in
  (fst run = Returned tt <-> _initialized (snd run) = true)
  /\ (forall e, fst run = Raised e ->
        _initialized (snd run) = false
        /\ (exn_cls e = RuntimeError
            \/ exn_cls e = FileNotFoundError /\ new_calls s (snd run) = [])).
Proof.
  intros run. subst run.
  unfold __init__. run_monad.
  destruct config_file as [config_file |]; run_init os lib; read_log.
  all: classify_lookup_failure.
  all: split; [ split; intros Hiff; try discriminate Hiff; reflexivity | ].
  all: intros e' He'; try discriminate He'; injection He' as <-.
  all: split; [ reflexivity | ].
  all: first [ left; reflexivity | right; split; [ assumption | reflexivity ] ].
Qed.

(** X16. When the initialise call itself, or the message accessor after a
    failed initialise call, raises instead of coming back, [__init__] turns
    that exception into a [RuntimeError] that keeps its text behind the
    prefix of a failed initialisation. *)
Theorem open_wraps_foreign_exceptions (os : OS) (lib : NativeLib)
    (config_file : option string) (device_type : Z)
    (use_defaults allow_demo : bool) (s : State)
    (before : list NativeCall) (c : NativeCall) (f : foreign_error) (msg : string) :
  let run := __init__ os lib config_file device_type use_defaults allow_demo s in
  new_calls s (snd run) = (before ++ [c])%list ->
  lib (history s ++ before)%list c = Throws f msg ->
  fst run = Raised (Exn RuntimeError ("Failed to initialize GlazLib session: " ++ msg)).
Proof.
  intros run. subst run.
  unfold __init__. run_monad.
  destruct config_file as [config_file |]; run_init os lib; read_log;
    rewrite ?new_calls_refl; intros Hlog Hthrow.
  all: destruct before as [| b1 [| b2 [| b3 before]]]; cbn [app] in Hlog;
    try discriminate Hlog;
    try (destruct before; discriminate Hlog);
    injection Hlog as Hlog; intros; subst.
  all: rewrite ?app_nil_r in *; cbn [app] in *.
  all: try (destruct before; discriminate).
  all: cbn [exn_str]; congruence.
Qed.

Lemma open_wraps_foreign_exceptions_witness :
  new_calls fresh
    (snd (__init__ bare_os crashing_lib None GLAZ_LINESCAN_II_V2_SINGLE_DEVICE_TYPE
            true true fresh))
  = ([] ++ [initialiseSingleDeviceSession 6 true true])%list
  /\ crashing_lib (history fresh ++ [])%list
       (initialiseSingleDeviceSession 6 true true)
     = Throws F_OSError "access violation"
  /\ fst (__init__ bare_os crashing_lib None GLAZ_LINESCAN_II_V2_SINGLE_DEVICE_TYPE
            true true fresh)
     = Raised (Exn RuntimeError
                 "Failed to initialize GlazLib session: access violation").
Proof.
  exact (conj eq_refl (conj eq_refl
    (open_wraps_foreign_exceptions bare_os crashing_lib None
       GLAZ_LINESCAN_II_V2_SINGLE_DEVICE_TYPE true true fresh []
       (initialiseSingleDeviceSession 6 true true) F_OSError "access violation"
       eq_refl eq_refl))).
Defined.

(** ** The minimal example *)

Example main_on_demo :
  main example_os demo_lib "/opt/pyglaz/examples/minimal_example.py"
    (fun _ => Returned tt) (entry fresh)
  = (Returned tt,
     {| glaz_in_locals := true;
        process :=
          {| _initialized := false;
             history :=
               [initialiseSession "/opt/pyglaz/configs/single_spectrometer.xml";
                getVersion; captureBackground 10; runMeasurement;
                getResult 0 None; getResult 0 (Some 3%nat); closeSession] |} |}).
Proof. reflexivity. Qed.

Example main_without_background :
  main example_os no_background_lib "/opt/pyglaz/examples/minimal_example.py"
    (fun _ => Returned tt) (entry fresh)
  = (Returned tt,
     {| glaz_in_locals := true;
        process :=
          {| _initialized := false;
             history :=
               [initialiseSession "/opt/pyglaz/configs/single_spectrometer.xml";
                getVersion; captureBackground 10; getLastErrorMessage 1024;
                closeSession] |} |}).
Proof. reflexivity. Qed.

Example main_without_configuration :
  main bare_os demo_lib "/opt/pyglaz/examples/minimal_example.py"
    (fun _ => Returned tt) (entry fresh)
  = (Returned tt, entry fresh).
Proof. reflexivity. Qed.

Lemma script_quiet_ret {A} (a : A) : script_quiet (script_ret a).
Proof. intros fr. split; [ reflexivity | apply quiet_step_refl ]. Qed.

Lemma script_quiet_outside {A} (r : result A) : script_quiet (outside r).
Proof. intros fr. split; [ reflexivity | apply quiet_step_refl ]. Qed.

Lemma script_quiet_on_glaz {A} (m : M A) : quiet m -> script_quiet (on_glaz m).
Proof.
  intros Hm fr. unfold on_glaz. specialize (Hm (process fr)).
  destruct (m (process fr)) as [outcome s']. cbn [fst snd process glaz_in_locals] in *.
  split; [ reflexivity | exact Hm ].
Qed.

Lemma script_quiet_bind {A B} (m : Script A) (k : A -> Script B) :
  script_quiet m -> (forall a, script_quiet (k a)) -> script_quiet (script_bind m k).
Proof.
  intros Hm Hk fr. unfold script_bind. destruct (Hm fr) as [Hl Hq].
  destruct (m fr) as [[a | e] fr1]; cbn [fst snd] in *.
  - destruct (Hk a fr1) as [Hl' Hq']. split; [ congruence | ].
    eapply quiet_step_trans; eassumption.
  - split; assumption.
Qed.

Lemma script_quiet_try_except {A} (m : Script A) (handler : exn -> Script A) :
  script_quiet m -> (forall e, script_quiet (handler e)) ->
  script_quiet (script_try_except m handler).
Proof.
  intros Hm Hh fr. unfold script_try_except. destruct (Hm fr) as [Hl Hq].
  destruct (m fr) as [[a | e] fr1]; cbn [fst snd] in *.
  - split; assumption.
  - destruct (Hh e fr1) as [Hl' Hq']. split; [ congruence | ].
    eapply quiet_step_trans; eassumption.
Qed.

Lemma measurement_steps_quiet lib show_plot :
  script_quiet (measurement_steps lib show_plot).
Proof.
  unfold measurement_steps.
  repeat first
    [ apply script_quiet_ret
    | apply script_quiet_outside
    | apply script_quiet_bind; [ | intros ? ]
    | apply script_quiet_on_glaz;
      unfold get_version, capture_background, run_measurement, get_result;
      quiet_steps
    | match goal with
      | |- script_quiet (match ?x with _ => _ end) => destruct x
      end ].
Qed.

(** [main], cut at the constructor. *)
Lemma main_when_open_fails os lib file show_plot s e :
  fst (__init__ os lib (Some (example_config os file))
         GLAZ_LINESCAN_II_V2_SINGLE_DEVICE_TYPE true true s) = Raised e ->
  main os lib file show_plot (entry s)
  = (Returned tt,
     entry (snd (__init__ os lib (Some (example_config os file))
                   GLAZ_LINESCAN_II_V2_SINGLE_DEVICE_TYPE true true s))).
Proof.
  intros Hopen.
  cbv [main script_try_finally script_try_except script_bind script_ret
       on_glaz assign_glaz glaz_is_assigned entry process glaz_in_locals].
  fold (example_config os file).
  destruct (__init__ os lib _ _ _ _ s) as [[[] | e'] s1]; [ discriminate | ].
  reflexivity.
Qed.

Lemma main_when_open_succeeds os lib file show_plot s :
  fst (__init__ os lib (Some (example_config os file))
         GLAZ_LINESCAN_II_V2_SINGLE_DEVICE_TYPE true true s) = Returned tt ->
  let opened :=
    {| glaz_in_locals := true;
       process := snd (__init__ os lib (Some (example_config os file))
                         GLAZ_LINESCAN_II_V2_SINGLE_DEVICE_TYPE true true s) |} in
  let after_steps :=
    snd (script_try_except (measurement_steps lib show_plot)
           (fun _ => script_ret tt) opened) in
  main os lib file show_plot (entry s)
  = (match fst (close lib (process after_steps)) with
     | Returned _ => Returned tt
     | Raised e => Raised e
     end,
     {| glaz_in_locals := glaz_in_locals after_steps;
        process := snd (close lib (process after_steps)) |}).
Proof.
  intros Hopen opened after_steps. subst after_steps opened.
  assert (Hquiet := script_quiet_try_except _ (fun _ : exn => script_ret tt)
                      (measurement_steps_quiet lib show_plot)
                      (fun _ => script_quiet_ret tt)).
  change (main os lib file show_plot (entry s))
    with (script_try_finally
            (script_try_except
               (on_glaz (__init__ os lib (Some (example_config os file))
                           GLAZ_LINESCAN_II_V2_SINGLE_DEVICE_TYPE true true) ~;;
                assign_glaz ~;; measurement_steps lib show_plot)
               (fun _ => script_ret tt))
            (assigned <~ glaz_is_assigned ;;
             if assigned then on_glaz (close lib) else script_ret tt)
            (entry s)).
  unfold script_try_finally at 1. unfold script_try_except at 1.
  unfold script_bind at 1. unfold on_glaz at 1. cbn [entry process glaz_in_locals].
  destruct (__init__ os lib _ _ _ _ s) as [[[] | e'] s1]; [ | discriminate ].
  cbn [snd]. unfold script_bind at 1. unfold assign_glaz at 1.
  cbn [process glaz_in_locals].
  set (opened := {| glaz_in_locals := true; process := s1 |}) in *.
  specialize (Hquiet opened). destruct Hquiet as [Hlocals _].
  unfold script_try_except in *.
  destruct (measurement_steps lib show_plot opened) as [[[] | e] fr1];
    cbn [fst snd script_ret] in *;
    unfold script_bind, glaz_is_assigned, on_glaz; cbv beta iota;
    rewrite !Hlocals; cbn [opened glaz_in_locals];
    destruct (close lib (process fr1)) as [[[] | e2] s2];
    cbn [fst snd]; rewrite ?Hlocals; reflexivity.
Qed.

Lemma init_success_call os lib path device_type use_defaults allow_demo s :
  let run := __init__ os lib (Some path) device_type use_defaults allow_demo s in
  (fst run = Returned tt ->
     _initialized (snd run) = true
     /\ exists found r,
          new_calls s (snd run) = [initialiseSession found]
          /\ lib (history s) (initialiseSession found) = Completes r
          /\ py_return (initialiseSession found) r = ERROR_NONE)
  /\ (forall e, fst run = Raised e ->
        _initialized (snd run) = false
        /\ forall found r rest,
             new_calls s (snd run) = initialiseSession found :: rest ->
             lib (history s) (initialiseSession found) = Completes r ->
             py_return (initialiseSession found) r <> ERROR_NONE).
Proof.
  intros run. subst run. unfold __init__. run_monad.
  run_init os lib; read_log; rewrite ?new_calls_refl.
  all: split; [ intros Hok; try discriminate Hok | intros e' Hbad; try discriminate Hbad ].
  all: split; [ reflexivity | ].
  all: try (eexists; eexists; split; [ reflexivity | split;
              [ eassumption | apply py_ne_false; assumption ] ]).
  all: intros found' r' rest' Hlog Hcall; try discriminate Hlog.
  all: injection Hlog as <- _.
  all: try congruence.
  all: rewrite Hlib in Hcall; injection Hcall as <-.
  all: intros Hsuccess; rewrite Hsuccess in Hstatus; discriminate Hstatus.
Qed.

Lemma close_raises_the_close_error lib s e :
  fst (close lib s) = Raised e ->
  exists msg, e = Exn RuntimeError ("Failed to close GlazLib session: " ++ msg).
Proof.
  unfold close. run_monad. destruct (_initialized s); cbn [negb].
  all: run_world lib; cbn [fst]; try discriminate.
  intros [= <-]. eexists. reflexivity.
Qed.

(** X17. However the minimal example ends, it leaves the session closed.  It
    asks the library to close the session exactly once when the constructor
    had returned (so that [glaz] was assigned) and never when it had not,
    whichever step in between failed; and [glaz] is assigned exactly when
    the first native call was [initialiseSession] and came back with the
    success status. *)
Theorem main_closes_what_it_opened (os : OS) (lib : NativeLib)
    (example___file__ : string) (show_plot : ndarray -> result unit) (s : State) :
  let run := main os lib example___file__ show_plot (entry s) in
  let log := new_calls s (process (snd run)) in
  _initialized (process (snd run)) = false
  /\ count_closeSession log = (if glaz_in_locals (snd run) then 1 else 0)%nat
  /\ (glaz_in_locals (snd run) = true <->
      exists path r rest,
        log = initialiseSession path :: rest
        /\ lib (history s) (initialiseSession path) = Completes r
        /\ py_return (initialiseSession path) r = ERROR_NONE).
Proof.
  intros run log. subst log run.
  pose proof (init_success_call os lib (example_config os example___file__)
                GLAZ_LINESCAN_II_V2_SINGLE_DEVICE_TYPE true true s) as [Hok Hbad].
  pose proof (init_no_release os lib (Some (example_config os example___file__))
                GLAZ_LINESCAN_II_V2_SINGLE_DEVICE_TYPE true true s)
    as (t0 & Ht0 & Hc0).
  destruct (fst (__init__ os lib (Some (example_config os example___file__))
                   GLAZ_LINESCAN_II_V2_SINGLE_DEVICE_TYPE true true s))
    as [[] | e] eqn:Hopen.
  - rewrite (main_when_open_succeeds os lib example___file__ show_plot s Hopen).
    cbv zeta. cbn [fst snd process glaz_in_locals].
    destruct (Hok eq_refl) as (Hflag & found & r & Hlog & Hcall & Hstatus).
    set (opened := {| glaz_in_locals := true; process := _ |}) in *.
    pose proof (script_quiet_try_except _ (fun _ : exn => script_ret tt)
                  (measurement_steps_quiet lib show_plot)
                  (fun _ => script_quiet_ret tt) opened)
      as [Hlocals [Hsame (t1 & Ht1 & Hc1)]].
    set (after_steps := snd (script_try_except _ _ opened)) in *.
    cbn [opened process glaz_in_locals] in Hlocals, Hsame, Ht1.
    destruct (close_released lib (process after_steps)) as (_ & Hclosed & t2 & Ht2 & Hc2);
      [ congruence | ].
    split; [ exact Hclosed | ].
    rewrite Hlocals.
    assert (Hall : history (snd (close lib (process after_steps)))
                   = (history s ++ (t0 ++ t1 ++ t2))%list).
    { rewrite Ht2, Ht1, Ht0, <- !app_assoc. reflexivity. }
    rewrite (new_calls_of_extension _ _ _ Hall).
    rewrite (new_calls_of_extension _ _ _ Ht0) in Hlog. subst t0.
    split.
    + rewrite !count_closeSession_app, Hc1, Hc2. reflexivity.
    + split; [ intros _ | reflexivity ].
      exists found, r, (t1 ++ t2)%list. repeat split; assumption.
  - rewrite (main_when_open_fails os lib example___file__ show_plot s e Hopen).
    cbn [fst snd process glaz_in_locals entry].
    destruct (Hbad e eq_refl) as (Hflag & Hnot).
    split; [ exact Hflag | ].
    rewrite (new_calls_of_extension _ _ _ Ht0).
    split; [ exact Hc0 | ].
    split; [ discriminate | ].
    intros (path & r & rest & Hlog & Hcall & Hstatus).
    exfalso. apply (Hnot path r rest); try assumption.
    rewrite (new_calls_of_extension _ _ _ Ht0). exact Hlog.
Qed.

(** X18. The minimal example lets one error out only: the [RuntimeError] of
    a failed [close].  Whatever else fails (the constructor, a method, the
    plotting) is caught; and when the constructor raises, [main] makes no
    further native call and returns normally. *)
Theorem main_raises_only_the_close_error (os : OS) (lib : NativeLib)
    (example___file__ : string) (show_plot : ndarray -> result unit) (s : State) :
  let opening :=
    __init__ os lib (Some (example_config os example___file__))
      GLAZ_LINESCAN_II_V2_SINGLE_DEVICE_TYPE true true s in
  let run := main os lib example___file__ show_plot (entry s) in
  (fst run = Returned tt
   \/ exists msg,
        fst run = Raised (Exn RuntimeError ("Failed to close GlazLib session: " ++ msg)))
  /\ (forall e, fst opening = Raised e -> run = (Returned tt, entry (snd opening))).
Proof.
  intros opening run. subst run opening. split.
  - destruct (fst (__init__ os lib (Some (example_config os example___file__))
                     GLAZ_LINESCAN_II_V2_SINGLE_DEVICE_TYPE true true s))
      as [[] | e] eqn:Hopen.
    + rewrite (main_when_open_succeeds os lib example___file__ show_plot s Hopen).
      cbv zeta. cbn [fst].
      destruct (fst (close lib _)) as [[] | e] eqn:Hclose.
      * left. reflexivity.
      * right. destruct (close_raises_the_close_error _ _ _ Hclose) as (msg & ->).
        exists msg. reflexivity.
    + rewrite (main_when_open_fails os lib example___file__ show_plot s e Hopen).
      left. reflexivity.
  - intros e. apply main_when_open_fails.
Qed.
